(** * JitBase: the control plane of the PowerPC just-in-time engine

    A shallow embedding of [Source/Core/Core/PowerPC/JitCommon/JitBase.cpp]:
    the configuration refresh, the derivation of the code-generation options,
    the BLR optimization with its stack guard, and the merge-eligibility
    check.  Member functions become functions over an explicit [JitBase]
    record; calls into collaborators whose code lives elsewhere in the tree
    (memory protection, block cache, core timing, logging) are recorded, in
    program order, as a trace of [Event]s. *)

From Stdlib Require Import ZArith Bool List String Lia.
Import ListNotations.
Local Open Scope Z_scope.

(** ** Machine integers *)

(** [uintptr_t] and [size_t] on the 64-bit hosts the JIT targets: unsigned
    arithmetic wraps modulo [2^64]. *)
Definition wrap64 (z : Z) : Z := z mod 2 ^ 64.

(** ** Collaborator data *)

(** The [_WIN32] preprocessor switch selects one of two bodies in
    [ProtectStack], [UnprotectStack] and [CleanUpAfterStackFault]. *)
Inductive Platform : Type :=
| Win32
| Posix.

(** The values [Config::Get] returns for the keys [RefreshConfig] reads. *)
Record Config : Type := {
  MAIN_DEBUG_JIT_OFF : bool;
  MAIN_DEBUG_JIT_LOAD_STORE_OFF : bool;
  MAIN_DEBUG_JIT_LOAD_STORE_LXZ_OFF : bool;
  MAIN_DEBUG_JIT_LOAD_STORE_LWZ_OFF : bool;
  MAIN_DEBUG_JIT_LOAD_STORE_LBZX_OFF : bool;
  MAIN_DEBUG_JIT_LOAD_STORE_FLOATING_OFF : bool;
  MAIN_DEBUG_JIT_LOAD_STORE_PAIRED_OFF : bool;
  MAIN_DEBUG_JIT_FLOATING_POINT_OFF : bool;
  MAIN_DEBUG_JIT_INTEGER_OFF : bool;
  MAIN_DEBUG_JIT_PAIRED_OFF : bool;
  MAIN_DEBUG_JIT_SYSTEM_REGISTERS_OFF : bool;
  MAIN_DEBUG_JIT_BRANCH_OFF : bool;
  MAIN_DEBUG_JIT_REGISTER_CACHE_OFF : bool;
  MAIN_ENABLE_DEBUGGING : bool;
  MAIN_FLOAT_EXCEPTIONS : bool;
  MAIN_DIVIDE_BY_ZERO_EXCEPTIONS : bool;
  MAIN_LOW_DCBZ_HACK : bool;
  MAIN_FPRF : bool;
  MAIN_ACCURATE_NANS : bool;
  MAIN_FASTMEM : bool;
  MAIN_ACCURATE_CPU_CACHE : bool;
  MAIN_JIT_FOLLOW_BRANCH : bool
}.

(** Everything outside the engine that its member functions query: the
    configuration store, [Core::System], [Core::IsCPUThread], the PowerPC
    globals ([breakpoints], [memchecks], [ppcState.msr]) and the host thread
    ([Common::GetCurrentThreadStack], the address of a local of the running
    frame, [sysconf(_SC_PAGESIZE)]).  A value of this record is the answer
    each query gives at the time of one call. *)
Record World : Type := {
  config : Config;
  IsMMUMode : bool;
  IsPauseOnPanicMode : bool;
  IsStepping : bool;
  IsCPUThread : bool;
  (* PowerPC::breakpoints: the addresses that carry a breakpoint *)
  breakpoints : list Z;
  (* PowerPC::memchecks.HasAny() *)
  memchecks_HasAny : bool;
  (* PowerPC::ppcState.msr.DR, the one-bit data address translation field of
     the machine state register: set when data address translation is on *)
  msr_DR : bool;
  (* Common::GetCurrentThreadStack(): (stack_addr, stack_size) *)
  GetCurrentThreadStack : Z * Z;
  (* reinterpret_cast<uintptr_t>(&stack_addr): where the frame of
     ProtectStack sits on the native stack *)
  frame_addr : Z;
  (* sysconf(_SC_PAGESIZE), a long; -1 when the query fails *)
  sysconf_PAGESIZE : Z
}.

(** [BreakPoints::IsAddressBreakPoint]. *)
Definition IsAddressBreakPoint (w : World) (a : Z) : bool :=
  existsb (Z.eqb a) (breakpoints w).

(** ** Engine data *)

(** [GekkoOPInfo]: the static description of an opcode; [flags] is a [u64]
    bit set of [FL_*] values. *)
Record GekkoOPInfo : Type := {
  flags : Z
}.

(** [PPCAnalyst::CodeOp], the fields the control plane reads. *)
Record CodeOp : Type := {
  address : Z;
  isBranchTarget : bool;
  opinfo : GekkoOPInfo
}.

(** [JitBase::JitOptions], the fields the control plane reads or writes. *)
Record JitOptions : Type := {
  enableBlocklink : bool;
  fastmem : bool;
  fastmem_arena : bool;
  memcheck : bool;
  fp_exceptions : bool;
  div_by_zero_exceptions : bool
}.

(** [JitBase::JitState]: [instructionsLeft] is an [int]; [op] is a pointer
    into the code buffer, so [op[i]] is the entry [i] places after the
    current one. *)
Record JitState : Type := {
  instructionsLeft : Z;
  op : Z -> CodeOp
}.

(** The option flags of [PPCAnalyst::PPCAnalyzer] that [RefreshConfig] sets. *)
Record PPCAnalyzer : Type := {
  an_debugging_enabled : bool;
  an_branch_following_enabled : bool;
  an_float_exceptions_enabled : bool;
  an_div_by_zero_exceptions_enabled : bool
}.

Definition SetDebuggingEnabled (b : bool) (a : PPCAnalyzer) : PPCAnalyzer :=
  {| an_debugging_enabled := b;
     an_branch_following_enabled := an_branch_following_enabled a;
     an_float_exceptions_enabled := an_float_exceptions_enabled a;
     an_div_by_zero_exceptions_enabled := an_div_by_zero_exceptions_enabled a |}.

Definition SetBranchFollowingEnabled (b : bool) (a : PPCAnalyzer) : PPCAnalyzer :=
  {| an_debugging_enabled := an_debugging_enabled a;
     an_branch_following_enabled := b;
     an_float_exceptions_enabled := an_float_exceptions_enabled a;
     an_div_by_zero_exceptions_enabled := an_div_by_zero_exceptions_enabled a |}.

Definition SetFloatExceptionsEnabled (b : bool) (a : PPCAnalyzer) : PPCAnalyzer :=
  {| an_debugging_enabled := an_debugging_enabled a;
     an_branch_following_enabled := an_branch_following_enabled a;
     an_float_exceptions_enabled := b;
     an_div_by_zero_exceptions_enabled := an_div_by_zero_exceptions_enabled a |}.

Definition SetDivByZeroExceptionsEnabled (b : bool) (a : PPCAnalyzer) : PPCAnalyzer :=
  {| an_debugging_enabled := an_debugging_enabled a;
     an_branch_following_enabled := an_branch_following_enabled a;
     an_float_exceptions_enabled := an_float_exceptions_enabled a;
     an_div_by_zero_exceptions_enabled := b |}.

(** The members of [JitBase] that the control plane reads or writes.
    [m_stack_guard] is a [u8*]: an address, with [0] for [nullptr]. *)
Record JitBase : Type := {
  bJITOff : bool;
  bJITLoadStoreOff : bool;
  bJITLoadStorelXzOff : bool;
  bJITLoadStorelwzOff : bool;
  bJITLoadStorelbzxOff : bool;
  bJITLoadStoreFloatingOff : bool;
  bJITLoadStorePairedOff : bool;
  bJITFloatingPointOff : bool;
  bJITIntegerOff : bool;
  bJITPairedOff : bool;
  bJITSystemRegistersOff : bool;
  bJITBranchOff : bool;
  bJITRegisterCacheOff : bool;
  m_enable_debugging : bool;
  m_enable_float_exceptions : bool;
  m_enable_div_by_zero_exceptions : bool;
  m_low_dcbz_hack : bool;
  m_fprf : bool;
  m_accurate_nans : bool;
  m_fastmem_enabled : bool;
  m_mmu_enabled : bool;
  m_pause_on_panic_enabled : bool;
  m_accurate_cpu_cache_enabled : bool;
  m_enable_blr_optimization : bool;
  m_cleanup_after_stackfault : bool;
  m_stack_guard : Z;
  analyzer : PPCAnalyzer;
  jo : JitOptions;
  js : JitState
}.

(** ** Member assignment

    One function per member that the code assigns on its own; each copies
    every other member. *)

Definition set_m_low_dcbz_hack (v : bool) (s : JitBase) : JitBase :=
  {| bJITOff := bJITOff s; bJITLoadStoreOff := bJITLoadStoreOff s;
     bJITLoadStorelXzOff := bJITLoadStorelXzOff s;
     bJITLoadStorelwzOff := bJITLoadStorelwzOff s;
     bJITLoadStorelbzxOff := bJITLoadStorelbzxOff s;
     bJITLoadStoreFloatingOff := bJITLoadStoreFloatingOff s;
     bJITLoadStorePairedOff := bJITLoadStorePairedOff s;
     bJITFloatingPointOff := bJITFloatingPointOff s; bJITIntegerOff := bJITIntegerOff s;
     bJITPairedOff := bJITPairedOff s; bJITSystemRegistersOff := bJITSystemRegistersOff s;
     bJITBranchOff := bJITBranchOff s; bJITRegisterCacheOff := bJITRegisterCacheOff s;
     m_enable_debugging := m_enable_debugging s;
     m_enable_float_exceptions := m_enable_float_exceptions s;
     m_enable_div_by_zero_exceptions := m_enable_div_by_zero_exceptions s;
     m_low_dcbz_hack := v; m_fprf := m_fprf s; m_accurate_nans := m_accurate_nans s;
     m_fastmem_enabled := m_fastmem_enabled s; m_mmu_enabled := m_mmu_enabled s;
     m_pause_on_panic_enabled := m_pause_on_panic_enabled s;
     m_accurate_cpu_cache_enabled := m_accurate_cpu_cache_enabled s;
     m_enable_blr_optimization := m_enable_blr_optimization s;
     m_cleanup_after_stackfault := m_cleanup_after_stackfault s;
     m_stack_guard := m_stack_guard s; analyzer := analyzer s; jo := jo s; js := js s |}.

Definition set_m_fastmem_enabled (v : bool) (s : JitBase) : JitBase :=
  {| bJITOff := bJITOff s; bJITLoadStoreOff := bJITLoadStoreOff s;
     bJITLoadStorelXzOff := bJITLoadStorelXzOff s;
     bJITLoadStorelwzOff := bJITLoadStorelwzOff s;
     bJITLoadStorelbzxOff := bJITLoadStorelbzxOff s;
     bJITLoadStoreFloatingOff := bJITLoadStoreFloatingOff s;
     bJITLoadStorePairedOff := bJITLoadStorePairedOff s;
     bJITFloatingPointOff := bJITFloatingPointOff s; bJITIntegerOff := bJITIntegerOff s;
     bJITPairedOff := bJITPairedOff s; bJITSystemRegistersOff := bJITSystemRegistersOff s;
     bJITBranchOff := bJITBranchOff s; bJITRegisterCacheOff := bJITRegisterCacheOff s;
     m_enable_debugging := m_enable_debugging s;
     m_enable_float_exceptions := m_enable_float_exceptions s;
     m_enable_div_by_zero_exceptions := m_enable_div_by_zero_exceptions s;
     m_low_dcbz_hack := m_low_dcbz_hack s; m_fprf := m_fprf s;
     m_accurate_nans := m_accurate_nans s; m_fastmem_enabled := v;
     m_mmu_enabled := m_mmu_enabled s; m_pause_on_panic_enabled := m_pause_on_panic_enabled s;
     m_accurate_cpu_cache_enabled := m_accurate_cpu_cache_enabled s;
     m_enable_blr_optimization := m_enable_blr_optimization s;
     m_cleanup_after_stackfault := m_cleanup_after_stackfault s;
     m_stack_guard := m_stack_guard s; analyzer := analyzer s; jo := jo s; js := js s |}.

Definition set_m_enable_blr_optimization (v : bool) (s : JitBase) : JitBase :=
  {| bJITOff := bJITOff s; bJITLoadStoreOff := bJITLoadStoreOff s;
     bJITLoadStorelXzOff := bJITLoadStorelXzOff s;
     bJITLoadStorelwzOff := bJITLoadStorelwzOff s;
     bJITLoadStorelbzxOff := bJITLoadStorelbzxOff s;
     bJITLoadStoreFloatingOff := bJITLoadStoreFloatingOff s;
     bJITLoadStorePairedOff := bJITLoadStorePairedOff s;
     bJITFloatingPointOff := bJITFloatingPointOff s; bJITIntegerOff := bJITIntegerOff s;
     bJITPairedOff := bJITPairedOff s; bJITSystemRegistersOff := bJITSystemRegistersOff s;
     bJITBranchOff := bJITBranchOff s; bJITRegisterCacheOff := bJITRegisterCacheOff s;
     m_enable_debugging := m_enable_debugging s;
     m_enable_float_exceptions := m_enable_float_exceptions s;
     m_enable_div_by_zero_exceptions := m_enable_div_by_zero_exceptions s;
     m_low_dcbz_hack := m_low_dcbz_hack s; m_fprf := m_fprf s;
     m_accurate_nans := m_accurate_nans s; m_fastmem_enabled := m_fastmem_enabled s;
     m_mmu_enabled := m_mmu_enabled s; m_pause_on_panic_enabled := m_pause_on_panic_enabled s;
     m_accurate_cpu_cache_enabled := m_accurate_cpu_cache_enabled s;
     m_enable_blr_optimization := v;
     m_cleanup_after_stackfault := m_cleanup_after_stackfault s;
     m_stack_guard := m_stack_guard s; analyzer := analyzer s; jo := jo s; js := js s |}.

Definition set_m_cleanup_after_stackfault (v : bool) (s : JitBase) : JitBase :=
  {| bJITOff := bJITOff s; bJITLoadStoreOff := bJITLoadStoreOff s;
     bJITLoadStorelXzOff := bJITLoadStorelXzOff s;
     bJITLoadStorelwzOff := bJITLoadStorelwzOff s;
     bJITLoadStorelbzxOff := bJITLoadStorelbzxOff s;
     bJITLoadStoreFloatingOff := bJITLoadStoreFloatingOff s;
     bJITLoadStorePairedOff := bJITLoadStorePairedOff s;
     bJITFloatingPointOff := bJITFloatingPointOff s; bJITIntegerOff := bJITIntegerOff s;
     bJITPairedOff := bJITPairedOff s; bJITSystemRegistersOff := bJITSystemRegistersOff s;
     bJITBranchOff := bJITBranchOff s; bJITRegisterCacheOff := bJITRegisterCacheOff s;
     m_enable_debugging := m_enable_debugging s;
     m_enable_float_exceptions := m_enable_float_exceptions s;
     m_enable_div_by_zero_exceptions := m_enable_div_by_zero_exceptions s;
     m_low_dcbz_hack := m_low_dcbz_hack s; m_fprf := m_fprf s;
     m_accurate_nans := m_accurate_nans s; m_fastmem_enabled := m_fastmem_enabled s;
     m_mmu_enabled := m_mmu_enabled s; m_pause_on_panic_enabled := m_pause_on_panic_enabled s;
     m_accurate_cpu_cache_enabled := m_accurate_cpu_cache_enabled s;
     m_enable_blr_optimization := m_enable_blr_optimization s; m_cleanup_after_stackfault := v;
     m_stack_guard := m_stack_guard s; analyzer := analyzer s; jo := jo s; js := js s |}.

Definition set_m_stack_guard (v : Z) (s : JitBase) : JitBase :=
  {| bJITOff := bJITOff s; bJITLoadStoreOff := bJITLoadStoreOff s;
     bJITLoadStorelXzOff := bJITLoadStorelXzOff s;
     bJITLoadStorelwzOff := bJITLoadStorelwzOff s;
     bJITLoadStorelbzxOff := bJITLoadStorelbzxOff s;
     bJITLoadStoreFloatingOff := bJITLoadStoreFloatingOff s;
     bJITLoadStorePairedOff := bJITLoadStorePairedOff s;
     bJITFloatingPointOff := bJITFloatingPointOff s; bJITIntegerOff := bJITIntegerOff s;
     bJITPairedOff := bJITPairedOff s; bJITSystemRegistersOff := bJITSystemRegistersOff s;
     bJITBranchOff := bJITBranchOff s; bJITRegisterCacheOff := bJITRegisterCacheOff s;
     m_enable_debugging := m_enable_debugging s;
     m_enable_float_exceptions := m_enable_float_exceptions s;
     m_enable_div_by_zero_exceptions := m_enable_div_by_zero_exceptions s;
     m_low_dcbz_hack := m_low_dcbz_hack s; m_fprf := m_fprf s;
     m_accurate_nans := m_accurate_nans s; m_fastmem_enabled := m_fastmem_enabled s;
     m_mmu_enabled := m_mmu_enabled s; m_pause_on_panic_enabled := m_pause_on_panic_enabled s;
     m_accurate_cpu_cache_enabled := m_accurate_cpu_cache_enabled s;
     m_enable_blr_optimization := m_enable_blr_optimization s;
     m_cleanup_after_stackfault := m_cleanup_after_stackfault s; m_stack_guard := v;
     analyzer := analyzer s; jo := jo s; js := js s |}.

Definition set_analyzer (v : PPCAnalyzer) (s : JitBase) : JitBase :=
  {| bJITOff := bJITOff s; bJITLoadStoreOff := bJITLoadStoreOff s;
     bJITLoadStorelXzOff := bJITLoadStorelXzOff s;
     bJITLoadStorelwzOff := bJITLoadStorelwzOff s;
     bJITLoadStorelbzxOff := bJITLoadStorelbzxOff s;
     bJITLoadStoreFloatingOff := bJITLoadStoreFloatingOff s;
     bJITLoadStorePairedOff := bJITLoadStorePairedOff s;
     bJITFloatingPointOff := bJITFloatingPointOff s; bJITIntegerOff := bJITIntegerOff s;
     bJITPairedOff := bJITPairedOff s; bJITSystemRegistersOff := bJITSystemRegistersOff s;
     bJITBranchOff := bJITBranchOff s; bJITRegisterCacheOff := bJITRegisterCacheOff s;
     m_enable_debugging := m_enable_debugging s;
     m_enable_float_exceptions := m_enable_float_exceptions s;
     m_enable_div_by_zero_exceptions := m_enable_div_by_zero_exceptions s;
     m_low_dcbz_hack := m_low_dcbz_hack s; m_fprf := m_fprf s;
     m_accurate_nans := m_accurate_nans s; m_fastmem_enabled := m_fastmem_enabled s;
     m_mmu_enabled := m_mmu_enabled s; m_pause_on_panic_enabled := m_pause_on_panic_enabled s;
     m_accurate_cpu_cache_enabled := m_accurate_cpu_cache_enabled s;
     m_enable_blr_optimization := m_enable_blr_optimization s;
     m_cleanup_after_stackfault := m_cleanup_after_stackfault s;
     m_stack_guard := m_stack_guard s; analyzer := v; jo := jo s; js := js s |}.

Definition set_jo (v : JitOptions) (s : JitBase) : JitBase :=
  {| bJITOff := bJITOff s; bJITLoadStoreOff := bJITLoadStoreOff s;
     bJITLoadStorelXzOff := bJITLoadStorelXzOff s;
     bJITLoadStorelwzOff := bJITLoadStorelwzOff s;
     bJITLoadStorelbzxOff := bJITLoadStorelbzxOff s;
     bJITLoadStoreFloatingOff := bJITLoadStoreFloatingOff s;
     bJITLoadStorePairedOff := bJITLoadStorePairedOff s;
     bJITFloatingPointOff := bJITFloatingPointOff s; bJITIntegerOff := bJITIntegerOff s;
     bJITPairedOff := bJITPairedOff s; bJITSystemRegistersOff := bJITSystemRegistersOff s;
     bJITBranchOff := bJITBranchOff s; bJITRegisterCacheOff := bJITRegisterCacheOff s;
     m_enable_debugging := m_enable_debugging s;
     m_enable_float_exceptions := m_enable_float_exceptions s;
     m_enable_div_by_zero_exceptions := m_enable_div_by_zero_exceptions s;
     m_low_dcbz_hack := m_low_dcbz_hack s; m_fprf := m_fprf s;
     m_accurate_nans := m_accurate_nans s; m_fastmem_enabled := m_fastmem_enabled s;
     m_mmu_enabled := m_mmu_enabled s; m_pause_on_panic_enabled := m_pause_on_panic_enabled s;
     m_accurate_cpu_cache_enabled := m_accurate_cpu_cache_enabled s;
     m_enable_blr_optimization := m_enable_blr_optimization s;
     m_cleanup_after_stackfault := m_cleanup_after_stackfault s;
     m_stack_guard := m_stack_guard s; analyzer := analyzer s; jo := v; js := js s |}.

Definition set_fastmem (v : bool) (o : JitOptions) : JitOptions :=
  {| enableBlocklink := enableBlocklink o; fastmem := v; fastmem_arena := fastmem_arena o;
     memcheck := memcheck o; fp_exceptions := fp_exceptions o;
     div_by_zero_exceptions := div_by_zero_exceptions o |}.

Definition set_memcheck (v : bool) (o : JitOptions) : JitOptions :=
  {| enableBlocklink := enableBlocklink o; fastmem := fastmem o;
     fastmem_arena := fastmem_arena o; memcheck := v; fp_exceptions := fp_exceptions o;
     div_by_zero_exceptions := div_by_zero_exceptions o |}.

Definition set_fp_exceptions (v : bool) (o : JitOptions) : JitOptions :=
  {| enableBlocklink := enableBlocklink o; fastmem := fastmem o;
     fastmem_arena := fastmem_arena o; memcheck := memcheck o; fp_exceptions := v;
     div_by_zero_exceptions := div_by_zero_exceptions o |}.

Definition set_div_by_zero_exceptions (v : bool) (o : JitOptions) : JitOptions :=
  {| enableBlocklink := enableBlocklink o; fastmem := fastmem o;
     fastmem_arena := fastmem_arena o; memcheck := memcheck o;
     fp_exceptions := fp_exceptions o; div_by_zero_exceptions := v |}.

Definition load_config (w : World) (s : JitBase) : JitBase :=
  {| bJITOff := MAIN_DEBUG_JIT_OFF (config w);
     bJITLoadStoreOff := MAIN_DEBUG_JIT_LOAD_STORE_OFF (config w);
     bJITLoadStorelXzOff := MAIN_DEBUG_JIT_LOAD_STORE_LXZ_OFF (config w);
     bJITLoadStorelwzOff := MAIN_DEBUG_JIT_LOAD_STORE_LWZ_OFF (config w);
     bJITLoadStorelbzxOff := MAIN_DEBUG_JIT_LOAD_STORE_LBZX_OFF (config w);
     bJITLoadStoreFloatingOff := MAIN_DEBUG_JIT_LOAD_STORE_FLOATING_OFF (config w);
     bJITLoadStorePairedOff := MAIN_DEBUG_JIT_LOAD_STORE_PAIRED_OFF (config w);
     bJITFloatingPointOff := MAIN_DEBUG_JIT_FLOATING_POINT_OFF (config w);
     bJITIntegerOff := MAIN_DEBUG_JIT_INTEGER_OFF (config w);
     bJITPairedOff := MAIN_DEBUG_JIT_PAIRED_OFF (config w);
     bJITSystemRegistersOff := MAIN_DEBUG_JIT_SYSTEM_REGISTERS_OFF (config w);
     bJITBranchOff := MAIN_DEBUG_JIT_BRANCH_OFF (config w);
     bJITRegisterCacheOff := MAIN_DEBUG_JIT_REGISTER_CACHE_OFF (config w);
     m_enable_debugging := MAIN_ENABLE_DEBUGGING (config w);
     m_enable_float_exceptions := MAIN_FLOAT_EXCEPTIONS (config w);
     m_enable_div_by_zero_exceptions := MAIN_DIVIDE_BY_ZERO_EXCEPTIONS (config w);
     m_low_dcbz_hack := MAIN_LOW_DCBZ_HACK (config w); m_fprf := MAIN_FPRF (config w);
     m_accurate_nans := MAIN_ACCURATE_NANS (config w);
     m_fastmem_enabled := MAIN_FASTMEM (config w); m_mmu_enabled := IsMMUMode w;
     m_pause_on_panic_enabled := IsPauseOnPanicMode w;
     m_accurate_cpu_cache_enabled := MAIN_ACCURATE_CPU_CACHE (config w);
     m_enable_blr_optimization := m_enable_blr_optimization s;
     m_cleanup_after_stackfault := m_cleanup_after_stackfault s;
     m_stack_guard := m_stack_guard s; analyzer := analyzer s; jo := jo s; js := js s |}.
(** ** Calls into collaborators

    The functions below are defined elsewhere in the tree; the model records
    each call with its arguments. *)
Inductive Event : Type :=
| EvPanicAlert (fmt : string) (args : list Z)          (* PanicAlertFmt *)
| EvWarnLog (fmt : string)                              (* WARN_LOG_FMT(POWERPC, ...) *)
| EvSetThreadStackGuarantee (reserve : Z)               (* SetThreadStackGuarantee *)
| EvReadProtectMemory (ptr size : Z)                    (* Common::ReadProtectMemory *)
| EvUnWriteProtectMemory (ptr size : Z)                 (* Common::UnWriteProtectMemory *)
| EvInvalidateICache (addr len : Z) (forced : bool)     (* GetBlockCache()->InvalidateICache *)
| EvForceExceptionCheck (cycles : Z)                    (* CoreTiming::ForceExceptionCheck *)
| EvClearCache                                          (* the pure virtual ClearCache *)
| EvResetStkOflw.                                       (* _resetstkoflw *)

(** ** The engine monad

    A member function takes the engine, and gives back its result, the engine
    as it leaves it, and the collaborator calls it made, oldest first. *)
Definition M (A : Type) : Type := JitBase -> A * JitBase * list Event.

Definition ret {A : Type} (a : A) : M A := fun s => (a, s, []).

Definition bind {A B : Type} (m : M A) (k : A -> M B) : M B :=
  fun s =>
    let '(a, s1, t1) := m s in
    let '(b, s2, t2) := k a s1 in
    (b, s2, t1 ++ t2).

Definition get : M JitBase := fun s => (s, s, []).

Definition modify (f : JitBase -> JitBase) : M unit := fun s => (tt, f s, []).

Definition call (e : Event) : M unit := fun s => (tt, s, [e]).

Notation "x <- m ;; k" := (bind m (fun x => k))
  (at level 61, m at next level, right associativity).
Notation "m ;; k" := (bind m (fun _ => k))
  (at level 61, right associativity).

Definition value_of {A : Type} (r : A * JitBase * list Event) : A := fst (fst r).
Definition state_of {A : Type} (r : A * JitBase * list Event) : JitBase := snd (fst r).
Definition trace_of {A : Type} (r : A * JitBase * list Event) : list Event := snd r.

(** ** JitBase member functions *)

(** Build-time inputs of the translation unit that are declared in headers:
    the host platform (the [_WIN32] switch), the stack-guard sizes of
    [JitBase.h] (all [size_t]), [Common::AlignUp] of [Common/Align.h], and
    two [FL_*] masks of [PPCTables.h]. *)
Record Build : Type := {
  target : Platform;
  SAFE_STACK_SIZE : Z;
  MIN_UNSAFE_STACK_SIZE : Z;
  GUARD_SIZE : Z;
  GUARD_OFFSET : Z;
  AlignUp : Z -> Z -> Z;
  FL_FLOAT_EXCEPTION : Z;
  FL_FLOAT_DIV : Z
}.

Definition RefreshConfig (w : World) : M unit :=
  modify (load_config w) ;;
  s <- get ;;
  (if m_accurate_cpu_cache_enabled s
   then modify (set_m_fastmem_enabled false) ;;
        (* This hack is unneeded if the data cache is being emulated. *)
        modify (set_m_low_dcbz_hack false)
   else ret tt) ;;
  s <- get ;;
  modify (fun s' => set_analyzer (SetDebuggingEnabled (m_enable_debugging s) (analyzer s')) s') ;;
  modify (fun s' => set_analyzer
            (SetBranchFollowingEnabled (MAIN_JIT_FOLLOW_BRANCH (config w)) (analyzer s')) s') ;;
  modify (fun s' => set_analyzer
            (SetFloatExceptionsEnabled (m_enable_float_exceptions s) (analyzer s')) s') ;;
  modify (fun s' => set_analyzer
            (SetDivByZeroExceptionsEnabled (m_enable_div_by_zero_exceptions s) (analyzer s')) s').

Definition InitBLROptimization : M unit :=
  s <- get ;;
  modify (set_m_enable_blr_optimization
            (enableBlocklink (jo s) && m_fastmem_enabled s && negb (m_enable_debugging s))) ;;
  modify (set_m_cleanup_after_stackfault false).

Definition ProtectStack (b : Build) (w : World) : M unit :=
  s <- get ;;
  if negb (m_enable_blr_optimization s) then ret tt else
  match target b with
  | Win32 =>
      let reserveSize := SAFE_STACK_SIZE b in
      call (EvSetThreadStackGuarantee reserveSize)
  | Posix =>
      let stack_addr := fst (GetCurrentThreadStack w) in
      let stack_size := snd (GetCurrentThreadStack w) in
      let stack_base_addr := stack_addr in
      let stack_middle_addr := frame_addr w in
      if (stack_middle_addr <? stack_base_addr)
         || (wrap64 (stack_base_addr + stack_size) <=? stack_middle_addr)
      then
        call (EvPanicAlert "Failed to get correct stack base" []) ;;
        modify (set_m_enable_blr_optimization false)
      else
      let page_size := sysconf_PAGESIZE w in
      if page_size <=? 0
      then
        call (EvPanicAlert "Failed to get page size" []) ;;
        modify (set_m_enable_blr_optimization false)
      else
      let stack_guard_addr := AlignUp b (wrap64 (stack_base_addr + GUARD_OFFSET b)) page_size in
      if (stack_middle_addr <=? stack_guard_addr)
         || (wrap64 (stack_middle_addr - stack_guard_addr)
             <? wrap64 (GUARD_SIZE b + MIN_UNSAFE_STACK_SIZE b))
      then
        call (EvPanicAlert
                ("Stack is too small for BLR optimization (size {:x}, base {:x}, current stack "
                 ++ "pointer {:x}, alignment {:x})")
                [stack_size; stack_base_addr; stack_middle_addr; page_size]) ;;
        modify (set_m_enable_blr_optimization false)
      else
      modify (set_m_stack_guard stack_guard_addr) ;;
      s <- get ;;
      call (EvReadProtectMemory (m_stack_guard s) (GUARD_SIZE b))
  end.

Definition UnprotectStack (b : Build) : M unit :=
  match target b with
  | Win32 => ret tt
  | Posix =>
      s <- get ;;
      if negb (m_stack_guard s =? 0)
      then
        call (EvUnWriteProtectMemory (m_stack_guard s) (GUARD_SIZE b)) ;;
        modify (set_m_stack_guard 0)
      else ret tt
  end.

Definition HandleStackFault (b : Build) (w : World) : M bool :=
  s <- get ;;
  if negb (m_enable_blr_optimization s) || negb (IsCPUThread w) then ret false else
  call (EvWarnLog "BLR cache disabled due to excessive BL in the emulated program.") ;;
  UnprotectStack b ;;
  modify (set_m_enable_blr_optimization false) ;;
  call (EvInvalidateICache 0 0xffffffff true) ;;
  call (EvForceExceptionCheck 0) ;;
  modify (set_m_cleanup_after_stackfault true) ;;
  ret true.

Definition CleanUpAfterStackFault (b : Build) : M unit :=
  s <- get ;;
  if m_cleanup_after_stackfault s
  then
    call EvClearCache ;;
    modify (set_m_cleanup_after_stackfault false) ;;
    match target b with
    | Win32 => call EvResetStkOflw
    | Posix => ret tt
    end
  else ret tt.

(** The loop [for (int i = 1; i <= count; i++)] of
    [CanMergeNextInstructions], with [n] the number of iterations still to
    run and [i] the loop variable. *)
Fixpoint merge_scan (w : World) (s : JitBase) (n : nat) (i : Z) : bool :=
  match n with
  | O => true
  | S n' =>
      if m_enable_debugging s && IsAddressBreakPoint w (address (op (js s) i)) then false
      else if isBranchTarget (op (js s) i) then false
      else merge_scan w s n' (i + 1)
  end.

(** A [const] member: it reads the engine and changes nothing.  [count],
    [instructionsLeft] and the loop variable are [int]s, taken as integers:
    the loop runs only when [count <= instructionsLeft], and its variable
    ends at [count + 1]. *)
Definition CanMergeNextInstructions (w : World) (s : JitBase) (count : Z) : bool :=
  if IsStepping w || (instructionsLeft (js s) <? count) then false
  else merge_scan w s (Z.to_nat count) 1.

Definition UpdateMemoryAndExceptionOptions (w : World) : M unit :=
  let any_watchpoints := memchecks_HasAny w in
  s <- get ;;
  modify (fun s' => set_jo (set_fastmem
            (m_fastmem_enabled s && fastmem_arena (jo s)
             && (msr_DR w || negb any_watchpoints)) (jo s')) s') ;;
  s <- get ;;
  modify (fun s' => set_jo (set_memcheck
            (m_mmu_enabled s || m_pause_on_panic_enabled s || any_watchpoints) (jo s')) s') ;;
  s <- get ;;
  modify (fun s' => set_jo (set_fp_exceptions (m_enable_float_exceptions s) (jo s')) s') ;;
  s <- get ;;
  modify (fun s' => set_jo (set_div_by_zero_exceptions
            (m_enable_div_by_zero_exceptions s) (jo s')) s').

(** It reads [jo] and the opcode's static flags only. *)
Definition ShouldHandleFPExceptionForInstruction (b : Build) (s : JitBase) (o : CodeOp) : bool :=
  if fp_exceptions (jo s)
  then negb (Z.land (flags (opinfo o)) (FL_FLOAT_EXCEPTION b) =? 0)
  else if div_by_zero_exceptions (jo s)
  then negb (Z.land (flags (opinfo o)) (FL_FLOAT_DIV b) =? 0)
  else false.

(** ** Sequences of calls

    The entry points that change the engine, as a caller may invoke them one
    after another; each comes with the [World] it runs in. *)
Inductive Call : Type :=
| CallRefreshConfig
| CallInitBLROptimization
| CallProtectStack
| CallUnprotectStack
| CallHandleStackFault
| CallCleanUpAfterStackFault
| CallUpdateMemoryAndExceptionOptions.

Definition perform (b : Build) (wc : World * Call) : M unit :=
  let '(w, c) := wc in
  match c with
  | CallRefreshConfig => RefreshConfig w
  | CallInitBLROptimization => InitBLROptimization
  | CallProtectStack => ProtectStack b w
  | CallUnprotectStack => UnprotectStack b
  | CallHandleStackFault => _ <- HandleStackFault b w ;; ret tt
  | CallCleanUpAfterStackFault => CleanUpAfterStackFault b
  | CallUpdateMemoryAndExceptionOptions => UpdateMemoryAndExceptionOptions w
  end.

Fixpoint run (b : Build) (cs : list (World * Call)) : M unit :=
  match cs with
  | [] => ret tt
  | wc :: cs' => perform b wc ;; run b cs'
  end.

Definition is_InitBLROptimization (wc : World * Call) : bool :=
  match snd wc with CallInitBLROptimization => true | _ => false end.

Definition is_RefreshConfig (wc : World * Call) : bool :=
  match snd wc with CallRefreshConfig => true | _ => false end.

Definition is_CleanUpAfterStackFault (wc : World * Call) : bool :=
  match snd wc with CallCleanUpAfterStackFault => true | _ => false end.

(** A session: the calls made between two [InitBLROptimization]s. *)
Definition within_session (cs : list (World * Call)) : bool :=
  forallb (fun wc => negb (is_InitBLROptimization wc)) cs.

(** Calls made while the configuration snapshot is not taken again. *)
Definition without_refresh (cs : list (World * Call)) : bool :=
  forallb (fun wc => negb (is_RefreshConfig wc)) cs.

Definition is_ClearCache (e : Event) : bool :=
  match e with EvClearCache => true | _ => false end.

(** How often the trace [t] clears the compiled-code cache. *)
Definition cache_clears (t : list Event) : nat :=
  List.length (filter is_ClearCache t).

(** ** What the properties speak of *)

(** The fastmem rule as the design document words it: configured fastmem,
    an available arena, and address translation disabled or no
    watchpoints. *)
Definition documented_fastmem (w : World) (s : JitBase) : bool :=
  m_fastmem_enabled s && fastmem_arena (jo s)
  && (negb (msr_DR w) || negb (memchecks_HasAny w)).

(** C1 as worded: the four options, with the documented fastmem rule. *)
Definition options_as_documented (w : World) (s : JitBase) : Prop :=
  let o := jo (state_of (UpdateMemoryAndExceptionOptions w s)) in
  fastmem o = documented_fastmem w s
  /\ memcheck o = (m_mmu_enabled s || m_pause_on_panic_enabled s || memchecks_HasAny w)
  /\ fp_exceptions o = m_enable_float_exceptions s
  /\ div_by_zero_exceptions o = m_enable_div_by_zero_exceptions s.

(** The opcode's static flags have a bit in common with [mask]. *)
Definition flagged (mask : Z) (o : CodeOp) : Prop :=
  Z.land (flags (opinfo o)) mask <> 0.

(** The guard address [ProtectStack] computes from the reported stack base
    and the page size. *)
Definition stack_guard_addr_of (b : Build) (w : World) : Z :=
  AlignUp b (wrap64 (fst (GetCurrentThreadStack w) + GUARD_OFFSET b)) (sysconf_PAGESIZE w).

(** The frame lies outside the reported stack. *)
Definition stack_bounds_check_fails (w : World) : bool :=
  (frame_addr w <? fst (GetCurrentThreadStack w))
  || (wrap64 (fst (GetCurrentThreadStack w) + snd (GetCurrentThreadStack w))
      <=? frame_addr w).

(** The page size could not be obtained or is not positive. *)
Definition page_size_check_fails (w : World) : bool :=
  sysconf_PAGESIZE w <=? 0.

(** The guard point is not below the frame, or the stack left between the
    two is less than the guard plus the minimum that must stay usable. *)
Definition stack_margin_check_fails (b : Build) (w : World) : bool :=
  (frame_addr w <=? stack_guard_addr_of b w)
  || (wrap64 (frame_addr w - stack_guard_addr_of b w)
      <? wrap64 (GUARD_SIZE b + MIN_UNSAFE_STACK_SIZE b)).

Definition integrity_check_fails (b : Build) (w : World) : bool :=
  stack_bounds_check_fails w || page_size_check_fails w || stack_margin_check_fails b w.

(** The margin check as the design document words it: the stack left
    between the guard point and the frame does not exceed the guard plus
    the minimum. *)
Definition documented_margin_check_fails (b : Build) (w : World) : bool :=
  frame_addr w - stack_guard_addr_of b w <=? GUARD_SIZE b + MIN_UNSAFE_STACK_SIZE b.

Definition documented_integrity_check_fails (b : Build) (w : World) : bool :=
  stack_bounds_check_fails w || page_size_check_fails w
  || documented_margin_check_fails b w.

(** [ProtectStack] gives up: one fatal diagnostic and nothing else is
    called, the optimization is switched off, no other member changes (so no
    guard pointer is set). *)
Definition disabled_with_one_diagnostic (b : Build) (w : World) (s : JitBase) : Prop :=
  exists (fmt : string) (args : list Z),
    ProtectStack b w s
    = (tt, set_m_enable_blr_optimization false s, [EvPanicAlert fmt args]).

(** [ProtectStack] arms: it records the guard address and read-protects
    [GUARD_SIZE] bytes there; the optimization stays on. *)
Definition guard_armed (b : Build) (w : World) (s : JitBase) : Prop :=
  ProtectStack b w s
  = (tt, set_m_stack_guard (stack_guard_addr_of b w) s,
     [EvReadProtectMemory (stack_guard_addr_of b w) (GUARD_SIZE b)]).

(** ** A concrete build and host

    Values for the build-time parameters and sample engines and worlds, to
    run the model on. *)

(** Rounding [value] up to a multiple of [size], in [uintptr_t]
    arithmetic. *)
Definition align_up (value size : Z) : Z :=
  wrap64 (value + wrap64 (size - value mod size) mod size).

(** A build for a host with explicit page protection.  The stack-guard
    sizes: a 256 KiB safe region (the figure the comment at the head of the
    source file names) whose upper 64 KiB are the guard, and at least
    192 KiB left usable above it.  The two masks are distinct bits of the
    [u64] flag word. *)
Definition posix_build : Build :=
  {| target := Posix;
     SAFE_STACK_SIZE := 256 * 1024;
     MIN_UNSAFE_STACK_SIZE := 192 * 1024;
     GUARD_SIZE := 64 * 1024;
     GUARD_OFFSET := 256 * 1024 - 64 * 1024;
     AlignUp := align_up;
     FL_FLOAT_EXCEPTION := 2 ^ 40;
     FL_FLOAT_DIV := 2 ^ 41 |}.

Definition sample_config (fastmem_on accurate_cache float_exc div_exc debugging : bool)
  : Config :=
  {| MAIN_DEBUG_JIT_OFF := false;
     MAIN_DEBUG_JIT_LOAD_STORE_OFF := false;
     MAIN_DEBUG_JIT_LOAD_STORE_LXZ_OFF := false;
     MAIN_DEBUG_JIT_LOAD_STORE_LWZ_OFF := false;
     MAIN_DEBUG_JIT_LOAD_STORE_LBZX_OFF := false;
     MAIN_DEBUG_JIT_LOAD_STORE_FLOATING_OFF := false;
     MAIN_DEBUG_JIT_LOAD_STORE_PAIRED_OFF := false;
     MAIN_DEBUG_JIT_FLOATING_POINT_OFF := false;
     MAIN_DEBUG_JIT_INTEGER_OFF := false;
     MAIN_DEBUG_JIT_PAIRED_OFF := false;
     MAIN_DEBUG_JIT_SYSTEM_REGISTERS_OFF := false;
     MAIN_DEBUG_JIT_BRANCH_OFF := false;
     MAIN_DEBUG_JIT_REGISTER_CACHE_OFF := false;
     MAIN_ENABLE_DEBUGGING := debugging;
     MAIN_FLOAT_EXCEPTIONS := float_exc;
     MAIN_DIVIDE_BY_ZERO_EXCEPTIONS := div_exc;
     MAIN_LOW_DCBZ_HACK := true;
     MAIN_FPRF := false;
     MAIN_ACCURATE_NANS := false;
     MAIN_FASTMEM := fastmem_on;
     MAIN_ACCURATE_CPU_CACHE := accurate_cache;
     MAIN_JIT_FOLLOW_BRANCH := true |}.

(** A host whose CPU thread has an 8 MiB stack at [0x7f0000000000], with
    the frame of the caller at [frame] and the page size [page]. *)
Definition sample_world (c : Config) (watchpoints : bool) (frame page : Z) : World :=
  {| config := c;
     IsMMUMode := false;
     IsPauseOnPanicMode := false;
     IsStepping := false;
     IsCPUThread := true;
     breakpoints := [0x80003108];
     memchecks_HasAny := watchpoints;
     msr_DR := true;
     GetCurrentThreadStack := (0x7f0000000000, 0x800000);
     frame_addr := frame;
     sysconf_PAGESIZE := page |}.

(** The usual host: fastmem configured, no watchpoints, the frame near the
    top of the stack, 4 KiB pages. *)
Definition usual_world : World :=
  sample_world (sample_config true false false false false) false 0x7f00007ff000 4096.

(** The same host with the accurate CPU cache configured. *)
Definition accurate_cache_world : World :=
  sample_world (sample_config true true false false false) false 0x7f00007ff000 4096.

(** The same host with a memory watchpoint set. *)
Definition watched_world : World :=
  sample_world (sample_config true false false false false) true 0x7f00007ff000 4096.

(** The same host when [sysconf] fails. *)
Definition no_page_size_world : World :=
  sample_world (sample_config true false false false false) false 0x7f00007ff000 (-1).

(** The same host with the frame deep in the stack: exactly
    [GUARD_SIZE + MIN_UNSAFE_STACK_SIZE] bytes above the guard point
    [0x7f0000030000]. *)
Definition exact_margin_world : World :=
  sample_world (sample_config true false false false false) false 0x7f0000070000 4096.

(** The same host with float exceptions configured and divide-by-zero
    exceptions not. *)
Definition float_exceptions_world : World :=
  sample_world (sample_config true false true false false) false 0x7f00007ff000 4096.

(** A window of decoded instructions at [0x80003100], four bytes apart; the
    entry three places on is a branch target, the next one can raise a
    float exception. *)
Definition sample_op (i : Z) : CodeOp :=
  {| address := 0x80003100 + 4 * i;
     isBranchTarget := i =? 3;
     opinfo := {| flags := if i =? 1 then FL_FLOAT_EXCEPTION posix_build else 0 |} |}.

(** A freshly constructed engine, before its first [RefreshConfig]: block
    linking on, a fastmem arena mapped, no guard pointer. *)
Definition fresh_engine : JitBase :=
  {| bJITOff := false; bJITLoadStoreOff := false; bJITLoadStorelXzOff := false;
     bJITLoadStorelwzOff := false; bJITLoadStorelbzxOff := false;
     bJITLoadStoreFloatingOff := false; bJITLoadStorePairedOff := false;
     bJITFloatingPointOff := false; bJITIntegerOff := false; bJITPairedOff := false;
     bJITSystemRegistersOff := false; bJITBranchOff := false;
     bJITRegisterCacheOff := false; m_enable_debugging := false;
     m_enable_float_exceptions := false; m_enable_div_by_zero_exceptions := false;
     m_low_dcbz_hack := false; m_fprf := false; m_accurate_nans := false;
     m_fastmem_enabled := false; m_mmu_enabled := false;
     m_pause_on_panic_enabled := false; m_accurate_cpu_cache_enabled := false;
     m_enable_blr_optimization := false; m_cleanup_after_stackfault := false;
     m_stack_guard := 0;
     analyzer := {| an_debugging_enabled := false; an_branch_following_enabled := false;
                    an_float_exceptions_enabled := false;
                    an_div_by_zero_exceptions_enabled := false |};
     jo := {| enableBlocklink := true; fastmem := false; fastmem_arena := true;
              memcheck := false; fp_exceptions := false; div_by_zero_exceptions := false |};
     js := {| instructionsLeft := 4; op := sample_op |} |}.

(** The engine after [RefreshConfig] on the usual host. *)
Definition configured_engine : JitBase :=
  state_of (RefreshConfig usual_world fresh_engine).

(** The engine with the BLR optimization switched on. *)
Definition armed_engine : JitBase :=
  state_of (InitBLROptimization configured_engine).

(** The engine with the guard region protected. *)
Definition guarded_engine : JitBase :=
  state_of (ProtectStack posix_build usual_world armed_engine).

(** ** Notions for whole runs *)

(** The guard pointer that a trace leaves, read off its protection calls
    alone, starting from the pointer [held] ([0] for none).  A protection of
    [GUARD_SIZE] bytes at [p] makes [p] the region held; a release must name
    the region held, with the same size, and leaves none.  [None] when the
    trace breaks this discipline. *)
Fixpoint track_guard (b : Build) (held : Z) (t : list Event) : option Z :=
  match t with
  | [] => Some held
  | EvReadProtectMemory p n :: t' =>
      if n =? GUARD_SIZE b then track_guard b p t' else None
  | EvUnWriteProtectMemory p n :: t' =>
      if negb (held =? 0) && (p =? held) && (n =? GUARD_SIZE b)
      then track_guard b 0 t'
      else None
  | _ :: t' => track_guard b held t'
  end.

(** The calls that only the page-protecting body makes. *)
Definition is_posix_call (e : Event) : bool :=
  match e with
  | EvPanicAlert _ _ | EvReadProtectMemory _ _ | EvUnWriteProtectMemory _ _ => true
  | _ => false
  end.

(** The calls that only the [_WIN32] body makes. *)
Definition is_win32_call (e : Event) : bool :=
  match e with
  | EvSetThreadStackGuarantee _ | EvResetStkOflw => true
  | _ => false
  end.

(** The calls that go with switching the BLR optimization off: the fatal
    diagnostic of [ProtectStack] and the cache invalidation of
    [HandleStackFault]. *)
Definition is_disarming_call (e : Event) : bool :=
  match e with
  | EvPanicAlert _ _ | EvInvalidateICache _ _ _ => true
  | _ => false
  end.

Definition disarmings (t : list Event) : nat :=
  List.length (filter is_disarming_call t).

Definition is_HandleStackFault (wc : World * Call) : bool :=
  match snd wc with CallHandleStackFault => true | _ => false end.

(** [1] while the BLR optimization is on, [0] otherwise. *)
Definition armed_count (s : JitBase) : nat :=
  if m_enable_blr_optimization s then 1%nat else 0%nat.

(** [1] while a cleanup is pending, [0] otherwise. *)
Definition pending_cleanups (s : JitBase) : nat :=
  if m_cleanup_after_stackfault s then 1%nat else 0%nat.

(** The analyzer's options repeat the members [RefreshConfig] set them
    from. *)
Definition analyzer_in_sync (s : JitBase) : Prop :=
  an_debugging_enabled (analyzer s) = m_enable_debugging s
  /\ an_float_exceptions_enabled (analyzer s) = m_enable_float_exceptions s
  /\ an_div_by_zero_exceptions_enabled (analyzer s) = m_enable_div_by_zero_exceptions s.

(** The two exception options of [jo] repeat the members
    [UpdateMemoryAndExceptionOptions] derives them from. *)
Definition options_follow_snapshot (s : JitBase) : Prop :=
  fp_exceptions (jo s) = m_enable_float_exceptions s
  /\ div_by_zero_exceptions (jo s) = m_enable_div_by_zero_exceptions s.

(** Two engines agree on every member that [RefreshConfig] does not
    assign. *)
Definition agree_outside_snapshot (s1 s2 : JitBase) : Prop :=
  jo s1 = jo s2
  /\ js s1 = js s2
  /\ m_enable_blr_optimization s1 = m_enable_blr_optimization s2
  /\ m_cleanup_after_stackfault s1 = m_cleanup_after_stackfault s2
  /\ m_stack_guard s1 = m_stack_guard s2.

(** Fastmem generation is on only with an arena. *)
Definition fastmem_has_arena (s : JitBase) : Prop :=
  fastmem (jo s) = true -> fastmem_arena (jo s) = true.

(** Two engines show [CanMergeNextInstructions] the same window of [count]
    entries after the current one. *)
Definition same_window (s1 s2 : JitBase) (count : Z) : Prop :=
  m_enable_debugging s1 = m_enable_debugging s2
  /\ instructionsLeft (js s1) = instructionsLeft (js s2)
  /\ forall i : Z,
       1 <= i <= count ->
       address (op (js s1) i) = address (op (js s2) i)
       /\ isBranchTarget (op (js s1) i) = isBranchTarget (op (js s2) i).

(** A session in which the stack overflows once: the optimization is set
    up and the guard protected in world [w]; later, in world [w'], a stack
    fault is delivered and the deferred cleanup runs. *)
Definition overflow_session (w w' : World) : list (World * Call) :=
  [(w, CallInitBLROptimization); (w, CallProtectStack);
   (w', CallHandleStackFault); (w', CallCleanUpAfterStackFault)].

(** An engine that differs from [configured_engine] in many members and
    in its window: the current entry itself is a branch target at the
    breakpoint address, and the entries from the third on differ.  The
    entries one and two places on are the same. *)
Definition other_window_engine : JitBase :=
  {| bJITOff := false; bJITLoadStoreOff := false; bJITLoadStorelXzOff := false;
     bJITLoadStorelwzOff := false; bJITLoadStorelbzxOff := false;
     bJITLoadStoreFloatingOff := false; bJITLoadStorePairedOff := false;
     bJITFloatingPointOff := false; bJITIntegerOff := false; bJITPairedOff := false;
     bJITSystemRegistersOff := false; bJITBranchOff := false;
     bJITRegisterCacheOff := false; m_enable_debugging := false;
     m_enable_float_exceptions := true; m_enable_div_by_zero_exceptions := false;
     m_low_dcbz_hack := false; m_fprf := true; m_accurate_nans := false;
     m_fastmem_enabled := false; m_mmu_enabled := true;
     m_pause_on_panic_enabled := false; m_accurate_cpu_cache_enabled := true;
     m_enable_blr_optimization := true; m_cleanup_after_stackfault := true;
     m_stack_guard := 0;
     analyzer := {| an_debugging_enabled := true; an_branch_following_enabled := false;
                    an_float_exceptions_enabled := false;
                    an_div_by_zero_exceptions_enabled := true |};
     jo := jo fresh_engine;
     js := {| instructionsLeft := 4;
              op := fun i =>
                      {| address := 0x80003100 + 4 * (if i =? 0 then 2 else i);
                         isBranchTarget := (i =? 0) || (3 <=? i);
                         opinfo := {| flags := 0 |} |} |} |}.

(** The same engine with the window of [fresh_engine]: it agrees with
    [fresh_engine] outside the snapshot. *)
Definition stale_snapshot_engine : JitBase :=
  {| bJITOff := true; bJITLoadStoreOff := true; bJITLoadStorelXzOff := false;
     bJITLoadStorelwzOff := false; bJITLoadStorelbzxOff := false;
     bJITLoadStoreFloatingOff := false; bJITLoadStorePairedOff := false;
     bJITFloatingPointOff := false; bJITIntegerOff := false; bJITPairedOff := false;
     bJITSystemRegistersOff := false; bJITBranchOff := false;
     bJITRegisterCacheOff := false; m_enable_debugging := true;
     m_enable_float_exceptions := true; m_enable_div_by_zero_exceptions := false;
     m_low_dcbz_hack := false; m_fprf := true; m_accurate_nans := false;
     m_fastmem_enabled := false; m_mmu_enabled := true;
     m_pause_on_panic_enabled := false; m_accurate_cpu_cache_enabled := true;
     m_enable_blr_optimization := false; m_cleanup_after_stackfault := false;
     m_stack_guard := 0;
     analyzer := {| an_debugging_enabled := false; an_branch_following_enabled := false;
                    an_float_exceptions_enabled := false;
                    an_div_by_zero_exceptions_enabled := true |};
     jo := jo fresh_engine;
     js := js fresh_engine |}.

(** ** Properties

    They hold for every build [b]. *)

Section Properties.

Variable b : Build.

(** ** Reading a run *)

Ltac unfold_m := unfold bind, ret, get, modify, call, value_of, state_of, trace_of.

Lemma state_of_bind {A B : Type} (m : M A) (k : A -> M B) (s : JitBase) :
  state_of (bind m k s) = state_of (k (value_of (m s)) (state_of (m s))).
Proof.
  unfold_m. destruct (m s) as [[a s1] t1]. cbn.
  destruct (k a s1) as [[r s2] t2]. reflexivity.
Qed.

Lemma trace_of_bind {A B : Type} (m : M A) (k : A -> M B) (s : JitBase) :
  trace_of (bind m k s)
  = trace_of (m s) ++ trace_of (k (value_of (m s)) (state_of (m s))).
Proof.
  unfold_m. destruct (m s) as [[a s1] t1]. cbn.
  destruct (k a s1) as [[r s2] t2]. reflexivity.
Qed.

Lemma run_cons_state (wc : World * Call) (cs : list (World * Call)) (s : JitBase) :
  state_of (run b (wc :: cs) s) = state_of (run b cs (state_of (perform b wc s))).
Proof. exact (state_of_bind (perform b wc) (fun _ => run b cs) s). Qed.

Lemma run_cons_trace (wc : World * Call) (cs : list (World * Call)) (s : JitBase) :
  trace_of (run b (wc :: cs) s)
  = trace_of (perform b wc s) ++ trace_of (run b cs (state_of (perform b wc s))).
Proof. exact (trace_of_bind (perform b wc) (fun _ => run b cs) s). Qed.

(** ** The code-generation options *)

(** C1 (amended): for every engine and world,
    [UpdateMemoryAndExceptionOptions] sets fastmem generation to configured
    fastmem AND arena available AND (data address translation ENABLED, that
    is [msr.DR] set, OR no watchpoints); memcheck generation to MMU mode OR
    pause-on-panic mode OR any watchpoints; the two exception options to the
    configured fidelities.  It leaves [enableBlocklink], [fastmem_arena] and
    every member other than [jo] as they were, and calls no collaborator. *)
Theorem UpdateMemoryAndExceptionOptions_options (w : World) (s : JitBase) :
  let r := UpdateMemoryAndExceptionOptions w s in
  let o := jo (state_of r) in
  fastmem o
  = (m_fastmem_enabled s && fastmem_arena (jo s) && (msr_DR w || negb (memchecks_HasAny w)))
  /\ memcheck o = (m_mmu_enabled s || m_pause_on_panic_enabled s || memchecks_HasAny w)
  /\ fp_exceptions o = m_enable_float_exceptions s
  /\ div_by_zero_exceptions o = m_enable_div_by_zero_exceptions s
  /\ enableBlocklink o = enableBlocklink (jo s)
  /\ fastmem_arena o = fastmem_arena (jo s)
  /\ state_of r = set_jo o s
  /\ trace_of r = [].
Proof.
  cbv zeta. unfold UpdateMemoryAndExceptionOptions. unfold_m. cbn.
  repeat split.
Qed.

(** ** What a call leaves alone *)

Ltac break_if :=
  match goal with
  | |- context [if ?c then _ else _] => destruct c eqn:?
  end.

Ltac run_engine :=
  unfold HandleStackFault;
  unfold RefreshConfig, InitBLROptimization, ProtectStack, UnprotectStack,
    CleanUpAfterStackFault, UpdateMemoryAndExceptionOptions;
  unfold_m; cbn; repeat (break_if; cbn).

(** Only [RefreshConfig] assigns the configured fastmem and DCBZ-hack
    members. *)
Lemma perform_keeps_snapshot (wc : World * Call) (s : JitBase) :
  is_RefreshConfig wc = false ->
  m_fastmem_enabled (state_of (perform b wc s)) = m_fastmem_enabled s
  /\ m_low_dcbz_hack (state_of (perform b wc s)) = m_low_dcbz_hack s.
Proof.
  destruct wc as [w c]. unfold is_RefreshConfig. cbn [snd].
  destruct c; intros Hc; try discriminate Hc; unfold perform;
    run_engine; split; reflexivity.
Qed.

Lemma run_keeps_snapshot (cs : list (World * Call)) :
  forall s : JitBase,
    without_refresh cs = true ->
    m_fastmem_enabled (state_of (run b cs s)) = m_fastmem_enabled s
    /\ m_low_dcbz_hack (state_of (run b cs s)) = m_low_dcbz_hack s.
Proof.
  induction cs as [| wc cs IH]; intros s Hcs.
  - split; reflexivity.
  - unfold without_refresh in Hcs. cbn [forallb] in Hcs.
    apply andb_true_iff in Hcs. destruct Hcs as [Hwc Hcs].
    apply negb_true_iff in Hwc.
    rewrite run_cons_state.
    destruct (IH (state_of (perform b wc s)) Hcs) as [IHf IHd].
    destruct (perform_keeps_snapshot wc s Hwc) as [Hf Hd].
    split; congruence.
Qed.

(** Only [InitBLROptimization] can switch the BLR optimization on. *)
Lemma perform_keeps_blr_off (wc : World * Call) (s : JitBase) :
  is_InitBLROptimization wc = false ->
  m_enable_blr_optimization s = false ->
  m_enable_blr_optimization (state_of (perform b wc s)) = false.
Proof.
  destruct wc as [w c]. unfold is_InitBLROptimization. cbn [snd].
  destruct c; intros Hc Hs; try discriminate Hc; unfold perform;
    run_engine; try assumption; try reflexivity; congruence.
Qed.

Lemma run_keeps_blr_off (cs : list (World * Call)) :
  forall s : JitBase,
    within_session cs = true ->
    m_enable_blr_optimization s = false ->
    m_enable_blr_optimization (state_of (run b cs s)) = false.
Proof.
  induction cs as [| wc cs IH]; intros s Hcs Hs.
  - exact Hs.
  - unfold within_session in Hcs. cbn [forallb] in Hcs.
    apply andb_true_iff in Hcs. destruct Hcs as [Hwc Hcs].
    apply negb_true_iff in Hwc.
    rewrite run_cons_state. apply IH; [exact Hcs |].
    apply perform_keeps_blr_off; assumption.
Qed.

(** The option record that [UpdateMemoryAndExceptionOptions] leaves. *)
Lemma derived_options (w : World) (s : JitBase) :
  fastmem (jo (state_of (UpdateMemoryAndExceptionOptions w s)))
  = (m_fastmem_enabled s && fastmem_arena (jo s) && (msr_DR w || negb (memchecks_HasAny w)))
  /\ fp_exceptions (jo (state_of (UpdateMemoryAndExceptionOptions w s)))
     = m_enable_float_exceptions s
  /\ div_by_zero_exceptions (jo (state_of (UpdateMemoryAndExceptionOptions w s)))
     = m_enable_div_by_zero_exceptions s.
Proof. unfold UpdateMemoryAndExceptionOptions. unfold_m. cbn. repeat split. Qed.

(** ** The configuration snapshot *)

Lemma RefreshConfig_snapshot (w : World) (s : JitBase) :
  let snap := state_of (RefreshConfig w s) in
  m_accurate_cpu_cache_enabled snap = MAIN_ACCURATE_CPU_CACHE (config w)
  /\ m_fastmem_enabled snap
     = (if MAIN_ACCURATE_CPU_CACHE (config w) then false else MAIN_FASTMEM (config w))
  /\ m_low_dcbz_hack snap
     = (if MAIN_ACCURATE_CPU_CACHE (config w) then false else MAIN_LOW_DCBZ_HACK (config w))
  /\ m_enable_float_exceptions snap = MAIN_FLOAT_EXCEPTIONS (config w)
  /\ m_enable_div_by_zero_exceptions snap = MAIN_DIVIDE_BY_ZERO_EXCEPTIONS (config w).
Proof.
  cbv zeta. unfold RefreshConfig. unfold_m. cbn.
  destruct (MAIN_ACCURATE_CPU_CACHE (config w)) eqn:Hacc; cbn; rewrite ?Hacc;
    repeat split.
Qed.

(** C3: a snapshot that [RefreshConfig] takes with the accurate CPU cache
    enabled has fastmem and the low-DCBZ hack off; they stay off under every
    later call that is not another [RefreshConfig]; and
    [UpdateMemoryAndExceptionOptions] then derives fastmem generation off,
    whatever the other configuration values, the watchpoints, the MMU state
    and the rest of the engine are. *)
Theorem accurate_cache_forces_fastmem_off
  (wr : World) (s : JitBase) (later : list (World * Call)) (wu : World) :
  MAIN_ACCURATE_CPU_CACHE (config wr) = true ->
  without_refresh later = true ->
  let snap := state_of (RefreshConfig wr s) in
  let s' := state_of (run b later snap) in
  m_accurate_cpu_cache_enabled snap = true
  /\ m_fastmem_enabled snap = false
  /\ m_low_dcbz_hack snap = false
  /\ m_fastmem_enabled s' = false
  /\ m_low_dcbz_hack s' = false
  /\ fastmem (jo (state_of (UpdateMemoryAndExceptionOptions wu s'))) = false.
Proof.
  intros Hacc Hlater snap s'.
  destruct (RefreshConfig_snapshot wr s) as (Ha & Hf & Hd & _).
  fold snap in Ha, Hf, Hd. rewrite Hacc in Ha, Hf, Hd.
  destruct (run_keeps_snapshot later snap Hlater) as [Hf' Hd'].
  fold s' in Hf', Hd'.
  assert (Hfs : m_fastmem_enabled s' = false) by congruence.
  repeat split; try congruence.
  destruct (derived_options wu s') as [Hu _].
  rewrite Hu, Hfs. reflexivity.
Qed.

(** C9: when the latest [RefreshConfig] ran with the accurate CPU cache
    enabled, [InitBLROptimization] leaves the BLR optimization disabled,
    whatever block linking, fastmem and debugging are configured to, and
    [ProtectStack] then returns at once: no guard region, no call, no
    change. *)
Theorem accurate_cache_keeps_blr_disarmed
  (wr : World) (s : JitBase) (later : list (World * Call)) (wp : World) :
  MAIN_ACCURATE_CPU_CACHE (config wr) = true ->
  without_refresh later = true ->
  let s1 := state_of (run b later (state_of (RefreshConfig wr s))) in
  let s2 := state_of (InitBLROptimization s1) in
  m_fastmem_enabled s1 = false
  /\ m_enable_blr_optimization s2 = false
  /\ m_stack_guard s2 = m_stack_guard s1
  /\ ProtectStack b wp s2 = (tt, s2, []).
Proof.
  intros Hacc Hlater s1 s2.
  destruct (RefreshConfig_snapshot wr s) as (_ & Hf & _).
  rewrite Hacc in Hf.
  destruct (run_keeps_snapshot later (state_of (RefreshConfig wr s)) Hlater) as [Hf' _].
  fold s1 in Hf'.
  assert (Hfs : m_fastmem_enabled s1 = false) by congruence.
  assert (Hblr : m_enable_blr_optimization s2 = false).
  { subst s2. unfold InitBLROptimization. unfold_m. cbn.
    rewrite Hfs. apply andb_false_iff. left. apply andb_false_r. }
  repeat split; try assumption.
  unfold ProtectStack. unfold_m. rewrite Hblr. reflexivity.
Qed.

(** ** The stack guard *)

(** C8: [UnprotectStack] is idempotent.  A second call right after the
    first changes nothing and calls no collaborator, so calling twice leaves
    the engine and the trace of calling once; where pages are protected
    explicitly the first call leaves the guard pointer null. *)
Theorem UnprotectStack_idempotent (s : JitBase) :
  let once := UnprotectStack b s in
  let again := UnprotectStack b (state_of once) in
  again = (tt, state_of once, [])
  /\ (UnprotectStack b ;; UnprotectStack b) s = once
  /\ match target b with
     | Posix => m_stack_guard (state_of once) = 0
     | Win32 => once = (tt, s, [])
     end.
Proof.
  cbv zeta. unfold UnprotectStack. unfold_m.
  destruct (target b); cbn.
  - repeat split.
  - destruct (m_stack_guard s =? 0) eqn:Hg; cbn; rewrite ?Hg; cbn.
    + apply Z.eqb_eq in Hg. repeat split. exact Hg.
    + repeat split.
Qed.

(** What [HandleStackFault] does when the fault is not its own. *)
Lemma HandleStackFault_not_mine (w : World) (s : JitBase) :
  m_enable_blr_optimization s = false \/ IsCPUThread w = false ->
  HandleStackFault b w s = (false, s, []).
Proof.
  intros H. unfold HandleStackFault. unfold_m.
  assert (Hc : negb (m_enable_blr_optimization s) || negb (IsCPUThread w) = true).
  { destruct H as [H | H]; rewrite H; cbn; [reflexivity | apply orb_true_r]. }
  rewrite Hc. reflexivity.
Qed.

(** What [HandleStackFault] does when the fault is its own. *)
Lemma HandleStackFault_mine (w : World) (s : JitBase) :
  m_enable_blr_optimization s = true ->
  IsCPUThread w = true ->
  HandleStackFault b w s
  = (true,
     set_m_cleanup_after_stackfault true
       (set_m_enable_blr_optimization false (state_of (UnprotectStack b s))),
     [EvWarnLog "BLR cache disabled due to excessive BL in the emulated program."]
       ++ trace_of (UnprotectStack b s)
       ++ [EvInvalidateICache 0 0xffffffff true; EvForceExceptionCheck 0]).
Proof.
  intros Hblr Hcpu. unfold HandleStackFault. unfold_m.
  rewrite Hblr, Hcpu. cbn.
  destruct (UnprotectStack b s) as [[u s1] t1]. cbn.
  reflexivity.
Qed.

(** C4: with the BLR optimization armed and on the CPU thread,
    [HandleStackFault] returns true and does exactly this: it logs one
    warning; it lifts the protection of the guard region (one
    [UnWriteProtectMemory] of [GUARD_SIZE] bytes at the guard pointer, which
    it then clears; nothing where no region is protected); it switches the
    optimization off, and no later call of the session switches it on again;
    it invalidates the whole instruction cache; it forces the exception check
    with a countdown of zero; and it marks the cleanup pending.  No other
    member changes. *)
Theorem HandleStackFault_handles_own_fault (w : World) (s : JitBase) :
  m_enable_blr_optimization s = true ->
  IsCPUThread w = true ->
  let r := HandleStackFault b w s in
  value_of r = true
  /\ m_enable_blr_optimization (state_of r) = false
  /\ m_cleanup_after_stackfault (state_of r) = true
  /\ m_stack_guard (state_of r)
     = match target b with Posix => 0 | Win32 => m_stack_guard s end
  /\ state_of r
     = set_m_cleanup_after_stackfault true
         (set_m_enable_blr_optimization false
            (set_m_stack_guard (m_stack_guard (state_of r)) s))
  /\ trace_of r
     = [EvWarnLog "BLR cache disabled due to excessive BL in the emulated program."]
         ++ match target b with
            | Posix =>
                if m_stack_guard s =? 0 then []
                else [EvUnWriteProtectMemory (m_stack_guard s) (GUARD_SIZE b)]
            | Win32 => []
            end
         ++ [EvInvalidateICache 0 0xffffffff true; EvForceExceptionCheck 0]
  /\ forall later : list (World * Call),
       within_session later = true ->
       m_enable_blr_optimization (state_of (run b later (state_of r))) = false.
Proof.
  intros Hblr Hcpu r. subst r.
  rewrite (HandleStackFault_mine w s Hblr Hcpu).
  unfold value_of, state_of at 1 2 3 4 5 6, trace_of at 1. cbn [fst snd].
  split; [reflexivity |]. split; [reflexivity |]. split; [reflexivity |].
  assert (Hu : UnprotectStack b s
               = (tt,
                  set_m_stack_guard
                    match target b with Posix => 0 | Win32 => m_stack_guard s end s,
                  match target b with
                  | Posix =>
                      if m_stack_guard s =? 0 then []
                      else [EvUnWriteProtectMemory (m_stack_guard s) (GUARD_SIZE b)]
                  | Win32 => []
                  end)
               \/ (UnprotectStack b s = (tt, s, [])
                   /\ match target b with
                      | Posix => m_stack_guard s = 0
                      | Win32 => True
                      end)).
  { unfold UnprotectStack. unfold_m. destruct (target b); cbn.
    - right. split; [reflexivity | exact I].
    - destruct (m_stack_guard s =? 0) eqn:Hg; cbn.
      + right. split; [reflexivity | apply Z.eqb_eq; exact Hg].
      + left. reflexivity. }
  destruct Hu as [Hu | [Hu Hg]]; rewrite Hu; unfold state_of, trace_of; cbn [fst snd].
  - split; [reflexivity |]. split; [reflexivity |]. split; [reflexivity |].
    intros later Hlater. apply run_keeps_blr_off; [exact Hlater | reflexivity].
  - split.
    { cbn. destruct (target b); [reflexivity | exact Hg]. }
    split; [reflexivity |].
    split.
    { destruct (target b); [reflexivity |]. rewrite Hg. reflexivity. }
    intros later Hlater. apply run_keeps_blr_off; [exact Hlater | reflexivity].
Qed.

(** C5: [HandleStackFault] returns false, leaves every member as it was and
    calls no collaborator whenever the BLR optimization is not armed or the
    caller is not the CPU thread.  In particular, once a fault has been
    handled, a second delivery (at once, or after any further calls of the
    session) is declined in this way: no second unprotect, no second cache
    invalidation; and the optimization stays off for the rest of the
    session. *)
Theorem HandleStackFault_declines_foreign_fault :
  (forall (w : World) (s : JitBase),
      m_enable_blr_optimization s = false \/ IsCPUThread w = false ->
      HandleStackFault b w s = (false, s, []))
  /\ (forall (w : World) (s : JitBase) (later : list (World * Call)) (w' : World),
         m_enable_blr_optimization s = true ->
         IsCPUThread w = true ->
         within_session later = true ->
         let s1 := state_of (HandleStackFault b w s) in
         let s2 := state_of (run b later s1) in
         HandleStackFault b w' s1 = (false, s1, [])
         /\ m_enable_blr_optimization s2 = false
         /\ HandleStackFault b w' s2 = (false, s2, [])).
Proof.
  split.
  - exact HandleStackFault_not_mine.
  - intros w s later w' Hblr Hcpu Hlater s1 s2.
    assert (Hoff : m_enable_blr_optimization s1 = false).
    { subst s1. rewrite (HandleStackFault_mine w s Hblr Hcpu). reflexivity. }
    assert (Hoff2 : m_enable_blr_optimization s2 = false).
    { subst s2. apply run_keeps_blr_off; assumption. }
    split; [apply HandleStackFault_not_mine; left; exact Hoff |].
    split; [exact Hoff2 |].
    apply HandleStackFault_not_mine. left. exact Hoff2.
Qed.

(** ** The deferred cleanup *)

Lemma cache_clears_app (t1 t2 : list Event) :
  cache_clears (t1 ++ t2) = (cache_clears t1 + cache_clears t2)%nat.
Proof. unfold cache_clears. rewrite filter_app, length_app. reflexivity. Qed.

(** With the optimization off, a call other than the cleanup itself neither
    clears the cache nor touches the pending flag. *)
Lemma perform_defers_cleanup (wc : World * Call) (s : JitBase) :
  is_InitBLROptimization wc = false ->
  is_CleanUpAfterStackFault wc = false ->
  m_enable_blr_optimization s = false ->
  cache_clears (trace_of (perform b wc s)) = 0%nat
  /\ m_cleanup_after_stackfault (state_of (perform b wc s)) = m_cleanup_after_stackfault s.
Proof.
  destruct wc as [w c]. unfold is_InitBLROptimization, is_CleanUpAfterStackFault.
  cbn [snd].
  destruct c; intros Hi Hc Hs; try discriminate Hi; try discriminate Hc;
    unfold perform.
  - run_engine; split; reflexivity.
  - unfold ProtectStack. unfold_m. rewrite Hs. cbn. split; reflexivity.
  - run_engine; split; reflexivity.
  - rewrite state_of_bind, trace_of_bind.
    rewrite (HandleStackFault_not_mine w s (or_introl Hs)).
    cbn. split; reflexivity.
  - run_engine; split; reflexivity.
Qed.

Lemma CleanUpAfterStackFault_runs (s : JitBase) :
  cache_clears (trace_of (CleanUpAfterStackFault b s))
  = (if m_cleanup_after_stackfault s then 1%nat else 0%nat)
  /\ m_cleanup_after_stackfault (state_of (CleanUpAfterStackFault b s)) = false
  /\ m_enable_blr_optimization (state_of (CleanUpAfterStackFault b s))
     = m_enable_blr_optimization s.
Proof.
  unfold CleanUpAfterStackFault. unfold_m.
  destruct (m_cleanup_after_stackfault s) eqn:Hp; cbn.
  - destruct (target b); cbn; repeat split.
  - repeat split. exact Hp.
Qed.

(** Over a session that starts with the optimization off, the cache is
    cleared once if a cleanup is pending and the session calls
    [CleanUpAfterStackFault], and not at all otherwise. *)
Lemma run_clears_once (cs : list (World * Call)) :
  forall s : JitBase,
    within_session cs = true ->
    m_enable_blr_optimization s = false ->
    cache_clears (trace_of (run b cs s))
    = (if m_cleanup_after_stackfault s && existsb is_CleanUpAfterStackFault cs
       then 1%nat else 0%nat).
Proof.
  induction cs as [| wc cs IH]; intros s Hcs Hs.
  - cbn. rewrite andb_false_r. reflexivity.
  - unfold within_session in Hcs. cbn [forallb] in Hcs.
    apply andb_true_iff in Hcs. destruct Hcs as [Hwc Hcs].
    apply negb_true_iff in Hwc.
    rewrite run_cons_trace, cache_clears_app.
    pose proof (perform_keeps_blr_off wc s Hwc Hs) as Hs'.
    rewrite (IH (state_of (perform b wc s)) Hcs Hs').
    cbn [existsb].
    destruct (is_CleanUpAfterStackFault wc) eqn:Hk.
    + destruct wc as [w c]. unfold is_CleanUpAfterStackFault in Hk. cbn [snd] in Hk.
      destruct c; try discriminate Hk. unfold perform.
      destruct (CleanUpAfterStackFault_runs s) as (Hn & Hp & _).
      rewrite Hn, Hp. cbn.
      destruct (m_cleanup_after_stackfault s); reflexivity.
    + destruct (perform_defers_cleanup wc s Hwc Hk Hs) as [Hn Hp].
      rewrite Hn, Hp. reflexivity.
Qed.

(** C10: [CleanUpAfterStackFault] does nothing while no cleanup is pending;
    when it runs it clears the pending flag; hence a second call right after
    a first does nothing, and calling twice equals calling once.  After a
    handled stack fault, the calls of the rest of the session clear the
    cache exactly once as soon as one of them is a cleanup (and not at all
    when none is). *)
Theorem CleanUpAfterStackFault_clears_once :
  (forall s : JitBase,
      m_cleanup_after_stackfault s = false ->
      CleanUpAfterStackFault b s = (tt, s, []))
  /\ (forall s : JitBase,
         m_cleanup_after_stackfault (state_of (CleanUpAfterStackFault b s)) = false)
  /\ (forall s : JitBase,
         let once := CleanUpAfterStackFault b s in
         CleanUpAfterStackFault b (state_of once) = (tt, state_of once, [])
         /\ (CleanUpAfterStackFault b ;; CleanUpAfterStackFault b) s = once)
  /\ (forall (w : World) (s : JitBase) (later : list (World * Call)),
         m_enable_blr_optimization s = true ->
         IsCPUThread w = true ->
         within_session later = true ->
         cache_clears (trace_of (run b later (state_of (HandleStackFault b w s))))
         = if existsb is_CleanUpAfterStackFault later then 1%nat else 0%nat).
Proof.
  assert (Hidle : forall s : JitBase,
             m_cleanup_after_stackfault s = false ->
             CleanUpAfterStackFault b s = (tt, s, [])).
  { intros s Hp. unfold CleanUpAfterStackFault. unfold_m. rewrite Hp. reflexivity. }
  split; [exact Hidle |].
  split; [intros s; apply CleanUpAfterStackFault_runs |].
  split.
  - intros s once.
    assert (Hp : m_cleanup_after_stackfault (state_of once) = false)
      by apply CleanUpAfterStackFault_runs.
    split; [apply Hidle; exact Hp |].
    unfold bind. fold once. destruct once as [[u s1] t1] eqn:Ho.
    unfold state_of in Hp. cbn [fst snd] in Hp.
    rewrite (Hidle s1 Hp). rewrite app_nil_r. destruct u. reflexivity.
  - intros w s later Hblr Hcpu Hlater.
    rewrite run_clears_once.
    + rewrite (HandleStackFault_mine w s Hblr Hcpu). reflexivity.
    + exact Hlater.
    + rewrite (HandleStackFault_mine w s Hblr Hcpu). reflexivity.
Qed.

(** ** Merge eligibility *)

Lemma IsAddressBreakPoint_In (w : World) (a : Z) :
  IsAddressBreakPoint w a = true <-> In a (breakpoints w).
Proof.
  unfold IsAddressBreakPoint. rewrite existsb_exists. split.
  - intros [x [Hin Heq]]. apply Z.eqb_eq in Heq. subst x. exact Hin.
  - intros Hin. exists a. split; [exact Hin | apply Z.eqb_refl].
Qed.

(** The scan accepts exactly when none of the [n] entries from [i] on is a
    branch target or, with debugging enabled, sits on a breakpoint. *)
Lemma merge_scan_true_iff (w : World) (s : JitBase) (n : nat) :
  forall i : Z,
    merge_scan w s n i = true <->
    forall k : Z,
      i <= k < i + Z.of_nat n ->
      isBranchTarget (op (js s) k) = false
      /\ m_enable_debugging s && IsAddressBreakPoint w (address (op (js s) k)) = false.
Proof.
  induction n as [| n IH]; intros i.
  - cbn. split; [intros _ k Hk; lia | reflexivity].
  - cbn [merge_scan]. rewrite Nat2Z.inj_succ.
    destruct (m_enable_debugging s && IsAddressBreakPoint w (address (op (js s) i)))
      eqn:Hbp.
    + split; [discriminate |].
      intros H. destruct (H i ltac:(lia)) as [_ Hi]. congruence.
    + destruct (isBranchTarget (op (js s) i)) eqn:Hbt.
      * split; [discriminate |].
        intros H. destruct (H i ltac:(lia)) as [Hi _]. congruence.
      * rewrite IH. split.
        -- intros H k Hk. destruct (Z.eq_dec k i) as [-> | Hne].
           ++ split; assumption.
           ++ apply H. lia.
        -- intros H k Hk. apply H. lia.
Qed.

(** C2: [CanMergeNextInstructions] returns true exactly when single-step
    mode is off, at least [count] instructions are left, none of the entries
    [op[1]] to [op[count]] is flagged as a branch target (whether or not
    debugging is enabled), and, if debugging is enabled, none of them is at
    a breakpoint address.  In every other case it returns false. *)
Theorem CanMergeNextInstructions_true_iff (w : World) (s : JitBase) (count : Z) :
  CanMergeNextInstructions w s count = true <->
  IsStepping w = false
  /\ count <= instructionsLeft (js s)
  /\ (forall i : Z, 1 <= i <= count -> isBranchTarget (op (js s) i) = false)
  /\ (m_enable_debugging s = true ->
      forall i : Z, 1 <= i <= count -> ~ In (address (op (js s) i)) (breakpoints w)).
Proof.
  unfold CanMergeNextInstructions.
  destruct (IsStepping w) eqn:Hstep; cbn [orb].
  { split; [discriminate | intros [H _]; discriminate H]. }
  destruct (instructionsLeft (js s) <? count) eqn:Hleft.
  { apply Z.ltb_lt in Hleft. split; [discriminate | intros (_ & H & _); lia]. }
  apply Z.ltb_ge in Hleft.
  rewrite merge_scan_true_iff. split.
  - intros H. split; [reflexivity |]. split; [exact Hleft |]. split.
    + intros i Hi. apply (H i). lia.
    + intros Hdbg i Hi Hin.
      destruct (H i ltac:(lia)) as [_ Hbp].
      rewrite Hdbg in Hbp. cbn in Hbp.
      apply IsAddressBreakPoint_In in Hin. congruence.
  - intros (_ & _ & Hbt & Hbp) k Hk.
    assert (Hk' : 1 <= k <= count) by lia.
    split; [apply Hbt; exact Hk' |].
    destruct (m_enable_debugging s) eqn:Hdbg; [| reflexivity].
    cbn. destruct (IsAddressBreakPoint w (address (op (js s) k))) eqn:Hin;
      [| reflexivity].
    exfalso. apply (Hbp eq_refl k Hk'). apply IsAddressBreakPoint_In. exact Hin.
Qed.

(** ** Floating-point exception handling per instruction *)

Lemma flagged_test (mask : Z) (o : CodeOp) :
  negb (Z.land (flags (opinfo o)) mask =? 0) = true <-> flagged mask o.
Proof.
  unfold flagged. rewrite negb_true_iff, Z.eqb_neq. reflexivity.
Qed.

(** C6: [ShouldHandleFPExceptionForInstruction] returns true iff the
    float-exception option is set and the opcode is flagged
    [FL_FLOAT_EXCEPTION]; else true iff the divide-by-zero option is set and
    the opcode is flagged [FL_FLOAT_DIV]; else false.  In particular, once
    the configuration with float exceptions on and divide-by-zero exceptions
    off has been refreshed and the options derived, an opcode flagged
    [FL_FLOAT_EXCEPTION] and not [FL_FLOAT_DIV] gives true, and with both
    configured off every opcode gives false. *)
Theorem ShouldHandleFPExceptionForInstruction_cases
  (w wu : World) (s : JitBase) (o : CodeOp) :
  (fp_exceptions (jo s) = true ->
   (ShouldHandleFPExceptionForInstruction b s o = true <-> flagged (FL_FLOAT_EXCEPTION b) o))
  /\ (fp_exceptions (jo s) = false ->
      div_by_zero_exceptions (jo s) = true ->
      (ShouldHandleFPExceptionForInstruction b s o = true <-> flagged (FL_FLOAT_DIV b) o))
  /\ (fp_exceptions (jo s) = false ->
      div_by_zero_exceptions (jo s) = false ->
      ShouldHandleFPExceptionForInstruction b s o = false)
  /\ let s' := state_of (UpdateMemoryAndExceptionOptions wu (state_of (RefreshConfig w s))) in
     (MAIN_FLOAT_EXCEPTIONS (config w) = true ->
      MAIN_DIVIDE_BY_ZERO_EXCEPTIONS (config w) = false ->
      flagged (FL_FLOAT_EXCEPTION b) o ->
      ~ flagged (FL_FLOAT_DIV b) o ->
      ShouldHandleFPExceptionForInstruction b s' o = true)
     /\ (MAIN_FLOAT_EXCEPTIONS (config w) = false ->
         MAIN_DIVIDE_BY_ZERO_EXCEPTIONS (config w) = false ->
         ShouldHandleFPExceptionForInstruction b s' o = false).
Proof.
  unfold ShouldHandleFPExceptionForInstruction.
  split; [intros Hfp; rewrite Hfp; apply flagged_test |].
  split; [intros Hfp Hdiv; rewrite Hfp, Hdiv; apply flagged_test |].
  split; [intros Hfp Hdiv; rewrite Hfp, Hdiv; reflexivity |].
  cbv zeta.
  destruct (derived_options wu (state_of (RefreshConfig w s)))
    as (_ & Hfp & Hdiv).
  destruct (RefreshConfig_snapshot w s) as (_ & _ & _ & Hcf & Hcd).
  rewrite Hcf in Hfp. rewrite Hcd in Hdiv.
  split.
  - intros Hf _ Hflag _. rewrite Hfp, Hf. apply flagged_test. exact Hflag.
  - intros Hf Hd. rewrite Hfp, Hdiv, Hf, Hd. reflexivity.
Qed.

(** ** Arming the stack guard *)

Lemma ProtectStack_posix (w : World) (s : JitBase) :
  target b = Posix ->
  m_enable_blr_optimization s = true ->
  if integrity_check_fails b w
  then disabled_with_one_diagnostic b w s
  else guard_armed b w s.
Proof.
  intros Ht Hblr.
  unfold integrity_check_fails, stack_bounds_check_fails, page_size_check_fails,
    stack_margin_check_fails, disabled_with_one_diagnostic, guard_armed,
    stack_guard_addr_of, ProtectStack.
  unfold_m. rewrite Ht, Hblr. cbn.
  destruct ((frame_addr w <? fst (GetCurrentThreadStack w))
            || (wrap64 (fst (GetCurrentThreadStack w) + snd (GetCurrentThreadStack w))
                <=? frame_addr w)); cbn.
  { eexists. eexists. reflexivity. }
  destruct (sysconf_PAGESIZE w <=? 0); cbn.
  { eexists. eexists. reflexivity. }
  match goal with |- context [if ?c then _ else _] => destruct c end; cbn.
  { eexists. eexists. reflexivity. }
  reflexivity.
Qed.

(** C7 (amended): on a host with explicit page protection, when
    [ProtectStack] runs with the optimization armed and an integrity check
    fails (the frame address lies outside the reported stack bounds; or the
    page size is not positive; or the guard point is not below the frame, or
    the stack between the guard point and the frame is LESS THAN the guard
    size plus the minimum unprotected size) it reports exactly one fatal
    diagnostic, switches the optimization off, and returns without
    protecting or recording any guard region; the optimization then stays
    off for the rest of the session. *)
Theorem ProtectStack_integrity_failure
  (w : World) (s : JitBase) (later : list (World * Call)) :
  target b = Posix ->
  m_enable_blr_optimization s = true ->
  integrity_check_fails b w = true ->
  within_session later = true ->
  disabled_with_one_diagnostic b w s
  /\ m_enable_blr_optimization (state_of (ProtectStack b w s)) = false
  /\ m_stack_guard (state_of (ProtectStack b w s)) = m_stack_guard s
  /\ m_enable_blr_optimization (state_of (run b later (state_of (ProtectStack b w s)))) = false.
Proof.
  intros Ht Hblr Hfail Hlater.
  pose proof (ProtectStack_posix w s Ht Hblr) as H.
  rewrite Hfail in H.
  split; [exact H |].
  destruct H as (fmt & args & H). rewrite H.
  unfold state_of. cbn [fst snd].
  split; [reflexivity |]. split; [reflexivity |].
  apply run_keeps_blr_off; [exact Hlater | reflexivity].
Qed.

(** At the exact margin (the stack left between guard point and frame
    equals the guard size plus the minimum) the code arms the guard. *)
Lemma ProtectStack_arms_at_exact_margin (w : World) (s : JitBase) :
  target b = Posix ->
  m_enable_blr_optimization s = true ->
  stack_bounds_check_fails w = false ->
  page_size_check_fails w = false ->
  0 < GUARD_SIZE b + MIN_UNSAFE_STACK_SIZE b < 2 ^ 64 ->
  frame_addr w - stack_guard_addr_of b w = GUARD_SIZE b + MIN_UNSAFE_STACK_SIZE b ->
  documented_integrity_check_fails b w = true /\ guard_armed b w s.
Proof.
  intros Ht Hblr Hb Hp Hsum Heq. split.
  - unfold documented_integrity_check_fails, documented_margin_check_fails.
    rewrite Heq, Z.leb_refl. apply orb_true_r.
  - pose proof (ProtectStack_posix w s Ht Hblr) as H.
    assert (Hm : stack_margin_check_fails b w = false).
    { unfold stack_margin_check_fails. rewrite Heq.
      unfold wrap64. rewrite Z.mod_small by lia.
      rewrite Z.ltb_irrefl, orb_false_r. apply Z.leb_gt. lia. }
    unfold integrity_check_fails in H. rewrite Hb, Hp, Hm in H. exact H.
Qed.

(** ** Whole runs: the guard region *)




Lemma perform_keeps_to_platform (wc : World * Call) (s : JitBase) :
  match target b with
  | Win32 =>
      forallb (fun e => negb (is_posix_call e)) (trace_of (perform b wc s)) = true
      /\ m_stack_guard (state_of (perform b wc s)) = m_stack_guard s
  | Posix =>
      forallb (fun e => negb (is_win32_call e)) (trace_of (perform b wc s)) = true
  end.
Proof.
  destruct wc as [w c]. destruct (target b) eqn:Ht; destruct c; unfold perform;
    unfold HandleStackFault;
    unfold RefreshConfig, InitBLROptimization, ProtectStack, UnprotectStack,
      CleanUpAfterStackFault, UpdateMemoryAndExceptionOptions;
    unfold_m; rewrite ?Ht; cbn; repeat (break_if; cbn);
    try split; reflexivity.
Qed.

(** X2: the two platform bodies never mix.  On a [_WIN32] build no sequence
    of calls ever issues a page-protection call or a fatal diagnostic, and
    the guard pointer is never assigned; on the other builds no sequence of
    calls ever issues [SetThreadStackGuarantee] or [_resetstkoflw]. *)
Theorem run_keeps_to_platform (cs : list (World * Call)) :
  forall s : JitBase,
    match target b with
    | Win32 =>
        forallb (fun e => negb (is_posix_call e)) (trace_of (run b cs s)) = true
        /\ m_stack_guard (state_of (run b cs s)) = m_stack_guard s
    | Posix =>
        forallb (fun e => negb (is_win32_call e)) (trace_of (run b cs s)) = true
    end.
Proof.
  induction cs as [| wc cs IH]; intros s.
  - destruct (target b); [split |]; reflexivity.
  - rewrite run_cons_trace, run_cons_state.
    pose proof (perform_keeps_to_platform wc s) as Hp.
    pose proof (IH (state_of (perform b wc s))) as Hr.
    destruct (target b).
    + destruct Hp as [Hp Hg]. destruct Hr as [Hr Hg'].
      split; [| congruence].
      rewrite forallb_app, Hp, Hr. reflexivity.
    + rewrite forallb_app, Hp, Hr. reflexivity.
Qed.

(** ** Whole runs: counting *)

Lemma disarmings_app (t1 t2 : list Event) :
  disarmings (t1 ++ t2) = (disarmings t1 + disarmings t2)%nat.
Proof. unfold disarmings. rewrite filter_app, length_app. reflexivity. Qed.

Lemma perform_disarms_once (wc : World * Call) (s : JitBase) :
  is_InitBLROptimization wc = false ->
  (disarmings (trace_of (perform b wc s)) + armed_count (state_of (perform b wc s))
   <= armed_count s)%nat.
Proof.
  destruct wc as [w c]. unfold is_InitBLROptimization. cbn [snd].
  unfold armed_count.
  destruct c; intros Hc; try discriminate Hc; unfold perform;
    destruct (m_enable_blr_optimization s) eqn:Hb;
    unfold HandleStackFault;
    unfold RefreshConfig, InitBLROptimization, ProtectStack, UnprotectStack,
      CleanUpAfterStackFault, UpdateMemoryAndExceptionOptions;
    unfold_m; rewrite ?Hb; cbn; repeat (break_if; cbn); rewrite ?Hb;
    cbn; lia.
Qed.

(** X3: within a session (no [InitBLROptimization]) the engine gives up the
    BLR optimization at most once.  The fatal diagnostics of [ProtectStack]
    and the cache invalidations of [HandleStackFault] number at most one
    together; there is none when the session starts with the optimization
    off; and after one the optimization is off at the end. *)
Theorem session_disarms_at_most_once (cs : list (World * Call)) :
  forall s : JitBase,
    within_session cs = true ->
    (disarmings (trace_of (run b cs s)) + armed_count (state_of (run b cs s))
     <= armed_count s)%nat.
Proof.
  induction cs as [| wc cs IH]; intros s Hcs.
  - cbn. lia.
  - unfold within_session in Hcs. cbn [forallb] in Hcs.
    apply andb_true_iff in Hcs. destruct Hcs as [Hwc Hcs].
    apply negb_true_iff in Hwc.
    rewrite run_cons_trace, run_cons_state, disarmings_app.
    pose proof (perform_disarms_once wc s Hwc) as Hp.
    pose proof (IH (state_of (perform b wc s)) Hcs) as Hr.
    lia.
Qed.

Lemma perform_clears_when_due (wc : World * Call) (s : JitBase) :
  (cache_clears (trace_of (perform b wc s))
   <= if is_CleanUpAfterStackFault wc then 1 else 0)%nat
  /\ (cache_clears (trace_of (perform b wc s)) + pending_cleanups (state_of (perform b wc s))
      <= pending_cleanups s + if is_HandleStackFault wc then 1 else 0)%nat.
Proof.
  destruct wc as [w c].
  unfold is_CleanUpAfterStackFault, is_HandleStackFault, pending_cleanups, cache_clears.
  cbn [snd].
  destruct c; unfold perform;
    destruct (m_cleanup_after_stackfault s) eqn:Hp;
    unfold HandleStackFault;
    unfold RefreshConfig, InitBLROptimization, ProtectStack, UnprotectStack,
      CleanUpAfterStackFault, UpdateMemoryAndExceptionOptions;
    unfold_m; rewrite ?Hp; cbn; repeat (break_if; cbn); rewrite ?Hp;
    cbn; rewrite ?filter_app, ?length_app; cbn; lia.
Qed.

(** X4: the compiled-code cache is cleared only by
    [CleanUpAfterStackFault], and only for a fault that was handled.  Over
    every sequence of calls the number of [ClearCache] calls is at most the
    number of [CleanUpAfterStackFault] calls, and, together with a cleanup
    still pending at the end, at most the number of [HandleStackFault]
    calls plus a cleanup pending at the start. *)
Theorem run_clears_only_when_due (cs : list (World * Call)) :
  forall s : JitBase,
    (cache_clears (trace_of (run b cs s))
     <= List.length (filter is_CleanUpAfterStackFault cs))%nat
    /\ (cache_clears (trace_of (run b cs s)) + pending_cleanups (state_of (run b cs s))
        <= pending_cleanups s + List.length (filter is_HandleStackFault cs))%nat.
Proof.
  induction cs as [| wc cs IH]; intros s.
  - cbn. lia.
  - rewrite run_cons_trace, run_cons_state, cache_clears_app.
    cbn [filter].
    destruct (perform_clears_when_due wc s) as [Hp1 Hp2].
    destruct (IH (state_of (perform b wc s))) as [Hr1 Hr2].
    destruct (is_CleanUpAfterStackFault wc), (is_HandleStackFault wc);
      cbn [List.length]; lia.
Qed.

(** ** Arming, releasing and a whole overflow *)

Lemma ProtectStack_on_inv (w : World) (s : JitBase) :
  target b = Posix ->
  m_enable_blr_optimization (state_of (ProtectStack b w s)) = true ->
  m_enable_blr_optimization s = true /\ integrity_check_fails b w = false.
Proof.
  intros Ht Hon.
  destruct (m_enable_blr_optimization s) eqn:Hblr.
  - split; [reflexivity |].
    pose proof (ProtectStack_posix w s Ht Hblr) as H.
    destruct (integrity_check_fails b w); [| reflexivity].
    destruct H as (fmt & args & H). rewrite H in Hon.
    unfold state_of in Hon. cbn in Hon. discriminate Hon.
  - exfalso. unfold ProtectStack, bind, get, ret, state_of in Hon.
    rewrite Hblr in Hon. cbn in Hon. congruence.
Qed.

(** X5: on a page-protecting build [ProtectStack] never leaves the BLR
    optimization on without a guard in place.  If the optimization is on
    when it returns, then it was on before, every integrity check passed,
    the guard pointer holds the computed guard address, and the one call
    made is the read-protection of [GUARD_SIZE] bytes there. *)
Theorem ProtectStack_on_means_guarded (w : World) (s : JitBase) :
  target b = Posix ->
  m_enable_blr_optimization (state_of (ProtectStack b w s)) = true ->
  m_enable_blr_optimization s = true
  /\ integrity_check_fails b w = false
  /\ m_stack_guard (state_of (ProtectStack b w s)) = stack_guard_addr_of b w
  /\ trace_of (ProtectStack b w s)
     = [EvReadProtectMemory (stack_guard_addr_of b w) (GUARD_SIZE b)].
Proof.
  intros Ht Hon.
  destruct (ProtectStack_on_inv w s Ht Hon) as [Hblr Hok].
  pose proof (ProtectStack_posix w s Ht Hblr) as H.
  rewrite Hok in H. unfold guard_armed in H. rewrite H.
  repeat split; assumption.
Qed.

(** X6: where [ProtectStack] leaves the optimization on, the guard region
    lies below the frame with room to spare: the guard address plus
    [GUARD_SIZE] plus [MIN_UNSAFE_STACK_SIZE] does not pass the frame
    address, the frame lies inside the reported stack, and the page size is
    positive.  (The guard address and the frame address are [uintptr_t]
    values, the two sizes [size_t] values whose sum does not wrap.) *)
Theorem armed_guard_below_frame (w : World) (s : JitBase) :
  target b = Posix ->
  m_enable_blr_optimization (state_of (ProtectStack b w s)) = true ->
  0 <= stack_guard_addr_of b w ->
  frame_addr w < 2 ^ 64 ->
  0 <= GUARD_SIZE b + MIN_UNSAFE_STACK_SIZE b < 2 ^ 64 ->
  stack_guard_addr_of b w + GUARD_SIZE b + MIN_UNSAFE_STACK_SIZE b <= frame_addr w
  /\ fst (GetCurrentThreadStack w) <= frame_addr w
     < wrap64 (fst (GetCurrentThreadStack w) + snd (GetCurrentThreadStack w))
  /\ 0 < sysconf_PAGESIZE w.
Proof.
  intros Ht Hon Hg Hf Hsum.
  destruct (ProtectStack_on_inv w s Ht Hon) as [_ Hok].
  unfold integrity_check_fails in Hok.
  apply orb_false_iff in Hok. destruct Hok as [Hok Hmargin].
  apply orb_false_iff in Hok. destruct Hok as [Hbounds Hpage].
  unfold stack_bounds_check_fails in Hbounds.
  apply orb_false_iff in Hbounds. destruct Hbounds as [Hlo Hhi].
  apply Z.ltb_ge in Hlo. apply Z.leb_gt in Hhi.
  unfold page_size_check_fails in Hpage. apply Z.leb_gt in Hpage.
  unfold stack_margin_check_fails in Hmargin.
  apply orb_false_iff in Hmargin. destruct Hmargin as [Hbelow Hroom].
  apply Z.leb_gt in Hbelow. apply Z.ltb_ge in Hroom.
  unfold wrap64 in Hroom.
  rewrite (Z.mod_small (frame_addr w - stack_guard_addr_of b w)) in Hroom by lia.
  rewrite (Z.mod_small (GUARD_SIZE b + MIN_UNSAFE_STACK_SIZE b)) in Hroom by lia.
  repeat split; try assumption; lia.
Qed.

(** X7: [UnprotectStack] undoes [ProtectStack].  On a page-protecting
    build, from an engine with the optimization on and no guard held, in a
    world where the integrity checks pass and the guard address is not
    null, [ProtectStack] followed by [UnprotectStack] protects and then
    releases the same [GUARD_SIZE] bytes at the guard address and leaves
    the engine exactly as it was. *)
Theorem ProtectStack_UnprotectStack_round_trip (w : World) (s : JitBase) :
  target b = Posix ->
  m_enable_blr_optimization s = true ->
  m_stack_guard s = 0 ->
  integrity_check_fails b w = false ->
  stack_guard_addr_of b w <> 0 ->
  (ProtectStack b w ;; UnprotectStack b) s
  = (tt, s,
     [EvReadProtectMemory (stack_guard_addr_of b w) (GUARD_SIZE b);
      EvUnWriteProtectMemory (stack_guard_addr_of b w) (GUARD_SIZE b)]).
Proof.
  intros Ht Hblr Hnull Hok Hg.
  pose proof (ProtectStack_posix w s Ht Hblr) as H.
  rewrite Hok in H. unfold guard_armed in H.
  unfold bind at 1. rewrite H.
  unfold UnprotectStack. unfold_m. rewrite Ht. cbn.
  apply Z.eqb_neq in Hg. rewrite Hg. cbn.
  destruct s. cbn in Hnull. subst. reflexivity.
Qed.

(** X8: a session in which the stack overflows once.  On a page-protecting
    build, with block linking and fastmem on, debugging off and no guard
    held, in a world [w] where the integrity checks pass with a non-null
    guard address, and with the fault delivered on the CPU thread:
    [InitBLROptimization], [ProtectStack], [HandleStackFault],
    [CleanUpAfterStackFault] make exactly six calls (protect the guard, log
    the warning, release the same guard, invalidate the instruction cache,
    force the exception check, clear the cache) and end with the
    optimization off, no cleanup pending, no guard held and every other
    member as it was. *)
Theorem overflow_session_outcome (w w' : World) (s : JitBase) :
  target b = Posix ->
  enableBlocklink (jo s) = true ->
  m_fastmem_enabled s = true ->
  m_enable_debugging s = false ->
  m_stack_guard s = 0 ->
  integrity_check_fails b w = false ->
  stack_guard_addr_of b w <> 0 ->
  IsCPUThread w' = true ->
  run b (overflow_session w w') s
  = (tt,
     set_m_cleanup_after_stackfault false (set_m_enable_blr_optimization false s),
     [EvReadProtectMemory (stack_guard_addr_of b w) (GUARD_SIZE b);
      EvWarnLog "BLR cache disabled due to excessive BL in the emulated program.";
      EvUnWriteProtectMemory (stack_guard_addr_of b w) (GUARD_SIZE b);
      EvInvalidateICache 0 0xffffffff true;
      EvForceExceptionCheck 0;
      EvClearCache]).
Proof.
  intros Ht Hlink Hfast Hdbg Hnull Hok Hg Hcpu.
  set (s1 := set_m_cleanup_after_stackfault false (set_m_enable_blr_optimization true s)).
  assert (Hinit : InitBLROptimization s = (tt, s1, [])).
  { unfold InitBLROptimization. unfold_m. rewrite Hlink, Hfast, Hdbg. reflexivity. }
  assert (Hprot : ProtectStack b w s1
                  = (tt, set_m_stack_guard (stack_guard_addr_of b w) s1,
                     [EvReadProtectMemory (stack_guard_addr_of b w) (GUARD_SIZE b)])).
  { pose proof (ProtectStack_posix w s1 Ht eq_refl) as H.
    rewrite Hok in H. exact H. }
  set (s2 := set_m_stack_guard (stack_guard_addr_of b w) s1) in *.
  assert (Hfault : HandleStackFault b w' s2
                   = (true,
                      set_m_cleanup_after_stackfault true
                        (set_m_enable_blr_optimization false (set_m_stack_guard 0 s2)),
                      [EvWarnLog
                         "BLR cache disabled due to excessive BL in the emulated program.";
                       EvUnWriteProtectMemory (stack_guard_addr_of b w) (GUARD_SIZE b);
                       EvInvalidateICache 0 0xffffffff true;
                       EvForceExceptionCheck 0])).
  { rewrite (HandleStackFault_mine w' s2 eq_refl Hcpu).
    unfold UnprotectStack. unfold_m. rewrite Ht. cbn.
    apply Z.eqb_neq in Hg. rewrite Hg. reflexivity. }
  unfold overflow_session. cbn [run perform].
  unfold bind. rewrite Hinit, Hprot, Hfault.
  unfold CleanUpAfterStackFault. unfold_m. rewrite Ht. cbn.
  destruct s. cbn in Hnull. subst. reflexivity.
Qed.

(** ** The snapshot, the analyzer and the options *)

(** X9: [RefreshConfig] rebuilds the snapshot in full.  What it leaves
    depends on the world and on the members outside the snapshot only, not
    on any earlier snapshot or analyzer setting: two engines that agree
    outside the snapshot are equal after it.  It keeps the members outside
    the snapshot ([jo], [js], the BLR flag, the pending flag, the guard
    pointer), calls no collaborator, and is idempotent in a given world. *)
Theorem RefreshConfig_overwrites_snapshot (w : World) (s1 s2 : JitBase) :
  agree_outside_snapshot s1 s2 ->
  RefreshConfig w s1 = RefreshConfig w s2
  /\ agree_outside_snapshot (state_of (RefreshConfig w s1)) s1
  /\ trace_of (RefreshConfig w s1) = []
  /\ RefreshConfig w (state_of (RefreshConfig w s1)) = RefreshConfig w s1.
Proof.
  unfold agree_outside_snapshot. intros (Hjo & Hjs & Hblr & Hcl & Hg).
  destruct s1, s2. cbn in Hjo, Hjs, Hblr, Hcl, Hg. subst.
  destruct w as [cfg mmu pop stepping cpu bps wp dr stk frame page]. destruct cfg.
  cbv.
  match goal with |- context [if ?c then _ else _] => destruct c end;
    repeat split.
Qed.

Lemma perform_keeps_analyzer_in_sync (wc : World * Call) (s : JitBase) :
  analyzer_in_sync s -> analyzer_in_sync (state_of (perform b wc s)).
Proof.
  destruct wc as [w c]. unfold analyzer_in_sync.
  destruct c; intros Hs; unfold perform; run_engine; try exact Hs;
    repeat split.
Qed.

Lemma RefreshConfig_syncs_analyzer (w : World) (s : JitBase) :
  analyzer_in_sync (state_of (RefreshConfig w s)).
Proof.
  unfold analyzer_in_sync, RefreshConfig. unfold_m. cbn.
  destruct (MAIN_ACCURATE_CPU_CACHE (config w)); cbn; repeat split.
Qed.

Lemma run_preserves_analyzer_in_sync (cs : list (World * Call)) :
  forall s : JitBase, analyzer_in_sync s -> analyzer_in_sync (state_of (run b cs s)).
Proof.
  induction cs as [| wc cs IH]; intros s Hs; [exact Hs |].
  rewrite run_cons_state. apply IH. apply perform_keeps_analyzer_in_sync. exact Hs.
Qed.

(** X10: the analyzer never drifts from the snapshot.  After a
    [RefreshConfig], and after any further calls whatever, the analyzer's
    debugging, float-exception and divide-by-zero options equal the
    engine's members of the same meaning. *)
Theorem run_keeps_analyzer_in_sync (w : World) (cs : list (World * Call)) (s : JitBase) :
  analyzer_in_sync (state_of (run b cs (state_of (RefreshConfig w s)))).
Proof.
  apply run_preserves_analyzer_in_sync. apply RefreshConfig_syncs_analyzer.
Qed.

Lemma perform_keeps_options (wc : World * Call) (s : JitBase) :
  is_RefreshConfig wc = false ->
  options_follow_snapshot s ->
  options_follow_snapshot (state_of (perform b wc s)).
Proof.
  destruct wc as [w c]. unfold is_RefreshConfig, options_follow_snapshot. cbn [snd].
  destruct c; intros Hc Hs; try discriminate Hc; unfold perform; run_engine;
    try exact Hs; split; reflexivity.
Qed.

Lemma run_keeps_options (cs : list (World * Call)) :
  forall s : JitBase,
    without_refresh cs = true ->
    options_follow_snapshot s ->
    options_follow_snapshot (state_of (run b cs s)).
Proof.
  induction cs as [| wc cs IH]; intros s Hcs Hs; [exact Hs |].
  unfold without_refresh in Hcs. cbn [forallb] in Hcs.
  apply andb_true_iff in Hcs. destruct Hcs as [Hwc Hcs].
  apply negb_true_iff in Hwc.
  rewrite run_cons_state. apply IH; [exact Hcs |].
  apply perform_keeps_options; assumption.
Qed.

(** X17: code generation and instruction analysis agree on exception
    handling.  Once the configuration has been refreshed and, after any
    calls, the options derived, then as long as no further [RefreshConfig]
    is made the float-exception and divide-by-zero options of [jo] equal
    the analyzer's options of the same meaning, whatever else is called. *)
Theorem options_agree_with_analyzer
  (w wu : World) (before after : list (World * Call)) (s : JitBase) :
  without_refresh after = true ->
  let s' :=
    state_of
      (run b after
         (state_of
            (UpdateMemoryAndExceptionOptions wu
               (state_of (run b before (state_of (RefreshConfig w s))))))) in
  fp_exceptions (jo s') = an_float_exceptions_enabled (analyzer s')
  /\ div_by_zero_exceptions (jo s') = an_div_by_zero_exceptions_enabled (analyzer s').
Proof.
  intros Hafter s'.
  set (s1 := state_of (run b before (state_of (RefreshConfig w s)))) in *.
  assert (Hsync1 : analyzer_in_sync s1)
    by (apply run_preserves_analyzer_in_sync, RefreshConfig_syncs_analyzer).
  set (s2 := state_of (UpdateMemoryAndExceptionOptions wu s1)) in *.
  assert (Hsync2 : analyzer_in_sync s2)
    by (apply (perform_keeps_analyzer_in_sync
                 (wu, CallUpdateMemoryAndExceptionOptions) s1 Hsync1)).
  assert (Hopt2 : options_follow_snapshot s2).
  { subst s2. unfold options_follow_snapshot, UpdateMemoryAndExceptionOptions.
    unfold_m. cbn. split; reflexivity. }
  assert (Hsync : analyzer_in_sync s')
    by (apply run_preserves_analyzer_in_sync; exact Hsync2).
  assert (Hopt : options_follow_snapshot s')
    by (apply run_keeps_options; assumption).
  destruct Hsync as (_ & Hf & Hd). destruct Hopt as [Hof Hod].
  split; congruence.
Qed.

(** X11: the latest [UpdateMemoryAndExceptionOptions] wins.  An update in
    world [w] right after an update in any world [w'] gives what the update
    in [w] alone gives: the derived options keep nothing of an earlier
    derivation, and the update is idempotent in a given world. *)
Theorem UpdateMemoryAndExceptionOptions_absorbs (w w' : World) (s : JitBase) :
  UpdateMemoryAndExceptionOptions w (state_of (UpdateMemoryAndExceptionOptions w' s))
  = UpdateMemoryAndExceptionOptions w s
  /\ (UpdateMemoryAndExceptionOptions w' ;; UpdateMemoryAndExceptionOptions w) s
     = UpdateMemoryAndExceptionOptions w s.
Proof.
  unfold UpdateMemoryAndExceptionOptions. unfold_m. cbn. split; reflexivity.
Qed.

Lemma perform_keeps_fastmem_arena (wc : World * Call) (s : JitBase) :
  fastmem_has_arena s -> fastmem_has_arena (state_of (perform b wc s)).
Proof.
  destruct wc as [w c]. unfold fastmem_has_arena.
  destruct c; intros Hs; unfold perform; run_engine; try exact Hs.
  intros H. apply andb_true_iff in H. destruct H as [H _].
  apply andb_true_iff in H. destruct H as [_ H]. exact H.
Qed.

(** X12: fastmem generation is never on without an arena.  After an
    [UpdateMemoryAndExceptionOptions], and after any further calls
    whatever, [jo.fastmem] set implies [jo.fastmem_arena] set. *)
Theorem run_keeps_fastmem_arena (w : World) (cs : list (World * Call)) (s : JitBase) :
  fastmem_has_arena (state_of (run b cs (state_of (UpdateMemoryAndExceptionOptions w s)))).
Proof.
  assert (Hstart : fastmem_has_arena (state_of (UpdateMemoryAndExceptionOptions w s))).
  { unfold fastmem_has_arena, UpdateMemoryAndExceptionOptions. unfold_m. cbn.
    intros H. apply andb_true_iff in H. destruct H as [H _].
    apply andb_true_iff in H. destruct H as [_ H]. exact H. }
  generalize dependent (state_of (UpdateMemoryAndExceptionOptions w s)).
  induction cs as [| wc cs IH]; intros s0 Hs0; [exact Hs0 |].
  rewrite run_cons_state. apply IH. apply perform_keeps_fastmem_arena. exact Hs0.
Qed.

(** X13: [InitBLROptimization] drops a pending cleanup.  Whatever the
    engine, a [CleanUpAfterStackFault] right after it does nothing, so the
    two together are [InitBLROptimization] alone; in particular, after a
    handled stack fault the deferred [ClearCache] is never made if the
    optimization is initialised again first. *)
Theorem InitBLROptimization_drops_cleanup (w : World) (s : JitBase) :
  (InitBLROptimization ;; CleanUpAfterStackFault b) s = InitBLROptimization s
  /\ cache_clears
       (trace_of
          (run b [(w, CallInitBLROptimization); (w, CallCleanUpAfterStackFault)]
             (state_of (HandleStackFault b w s))))
     = 0%nat.
Proof.
  split.
  - unfold InitBLROptimization, CleanUpAfterStackFault. unfold_m. cbn. reflexivity.
  - cbn [run perform].
    unfold InitBLROptimization, CleanUpAfterStackFault. unfold_m. cbn.
    destruct (HandleStackFault b w s) as [[r s1] t1]. cbn. reflexivity.
Qed.

(** ** More on merge eligibility *)

(** X14: eligibility is downward closed in the count.  If the next [n]
    instructions can be merged, so can the next [m], for every [m <= n]
    (zero and negative counts included). *)
Theorem CanMergeNextInstructions_fewer (w : World) (s : JitBase) (n m : Z) :
  CanMergeNextInstructions w s n = true ->
  m <= n ->
  CanMergeNextInstructions w s m = true.
Proof.
  unfold CanMergeNextInstructions. intros Hn Hm.
  destruct (IsStepping w); cbn [orb] in *; [discriminate Hn |].
  destruct (instructionsLeft (js s) <? n) eqn:Hleft; [discriminate Hn |].
  apply Z.ltb_ge in Hleft.
  assert (Hleft' : (instructionsLeft (js s) <? m) = false) by (apply Z.ltb_ge; lia).
  rewrite Hleft'.
  rewrite merge_scan_true_iff in *.
  intros k Hk. apply Hn. lia.
Qed.

Lemma merge_scan_same_window (w : World) (s1 s2 : JitBase) (n : nat) :
  m_enable_debugging s1 = m_enable_debugging s2 ->
  forall i : Z,
    (forall k : Z,
        i <= k < i + Z.of_nat n ->
        address (op (js s1) k) = address (op (js s2) k)
        /\ isBranchTarget (op (js s1) k) = isBranchTarget (op (js s2) k)) ->
    merge_scan w s1 n i = merge_scan w s2 n i.
Proof.
  intros Hdbg. induction n as [| n IH]; intros i Hwin; [reflexivity |].
  cbn [merge_scan]. rewrite Nat2Z.inj_succ in Hwin.
  destruct (Hwin i ltac:(lia)) as [Ha Hb].
  rewrite Hdbg, Ha, Hb.
  rewrite (IH (i + 1)); [reflexivity |].
  intros k Hk. apply Hwin. lia.
Qed.

(** X15: [CanMergeNextInstructions] looks at the entries [op[1]] to
    [op[count]] only, and there at the address and the branch-target flag
    only.  Two engines with the same debugging setting, the same number of
    instructions left and the same such entries get the same answer,
    however the current entry [op[0]], the entries past [count], the
    opcode information or any other member differ. *)
Theorem CanMergeNextInstructions_same_window (w : World) (s1 s2 : JitBase) (count : Z) :
  same_window s1 s2 count ->
  CanMergeNextInstructions w s1 count = CanMergeNextInstructions w s2 count.
Proof.
  unfold same_window, CanMergeNextInstructions. intros (Hdbg & Hleft & Hwin).
  rewrite Hleft.
  destruct (IsStepping w || (instructionsLeft (js s2) <? count)); [reflexivity |].
  apply merge_scan_same_window; [exact Hdbg |].
  intros k Hk. apply Hwin. lia.
Qed.

(** X16: a count of zero or less examines no instruction.  The answer is
    then true exactly when single-step mode is off and [instructionsLeft]
    is not below the count, whatever the window holds and whatever
    breakpoints are set. *)
Theorem CanMergeNextInstructions_nothing_to_merge (w : World) (s : JitBase) (count : Z) :
  count <= 0 ->
  CanMergeNextInstructions w s count
  = negb (IsStepping w) && (count <=? instructionsLeft (js s)).
Proof.
  intros Hc. unfold CanMergeNextInstructions.
  assert (Hz : Z.to_nat count = 0%nat) by lia. rewrite Hz. cbn [merge_scan].
  destruct (IsStepping w); cbn; [reflexivity |].
  destruct (Z.ltb_spec (instructionsLeft (js s)) count);
    destruct (Z.leb_spec count (instructionsLeft (js s))); try reflexivity; lia.
Qed.

End Properties.

(** ** The model at concrete inputs *)

Example armed_engine_is_armed : m_enable_blr_optimization armed_engine = true.
Proof. reflexivity. Qed.

Example guarded_engine_guard : m_stack_guard guarded_engine = 0x7f0000030000.
Proof. reflexivity. Qed.

Example guarded_engine_protects :
  trace_of (ProtectStack posix_build usual_world armed_engine)
  = [EvReadProtectMemory 0x7f0000030000 65536].
Proof. reflexivity. Qed.

Example sample_window_merge :
  CanMergeNextInstructions usual_world configured_engine 2 = true
  /\ CanMergeNextInstructions usual_world configured_engine 3 = false
  /\ CanMergeNextInstructions usual_world configured_engine 5 = false.
Proof. repeat split. Qed.

Example no_page_size_diagnostic :
  ProtectStack posix_build no_page_size_world armed_engine
  = (tt, set_m_enable_blr_optimization false armed_engine,
     [EvPanicAlert "Failed to get page size" []]).
Proof. reflexivity. Qed.

Example exact_margin_protects :
  trace_of (ProtectStack posix_build exact_margin_world armed_engine)
  = [EvReadProtectMemory 0x7f0000030000 65536]
  /\ frame_addr exact_margin_world - 0x7f0000030000
     = GUARD_SIZE posix_build + MIN_UNSAFE_STACK_SIZE posix_build.
Proof. split; reflexivity. Qed.

Example watched_fastmem_stays_on :
  fastmem (jo (state_of (UpdateMemoryAndExceptionOptions watched_world configured_engine)))
  = true
  /\ documented_fastmem watched_world configured_engine = false.
Proof. split; reflexivity. Qed.

(** With a watchpoint set and data address translation on, the code keeps
    fastmem generation on, where the documented rule gives off: C1 as worded
    fails here. *)
Lemma fastmem_rule_not_as_documented :
  ~ options_as_documented watched_world configured_engine.
Proof.
  unfold options_as_documented. intros [H _].
  vm_compute in H. discriminate H.
Qed.

Lemma accurate_cache_forces_fastmem_off_witness :
  MAIN_ACCURATE_CPU_CACHE (config accurate_cache_world) = true
  /\ m_low_dcbz_hack (state_of (RefreshConfig accurate_cache_world fresh_engine)) = false
  /\ fastmem
       (jo (state_of
              (UpdateMemoryAndExceptionOptions watched_world
                 (state_of
                    (run posix_build
                       [(usual_world, CallInitBLROptimization);
                        (usual_world, CallProtectStack)]
                       (state_of (RefreshConfig accurate_cache_world fresh_engine)))))))
     = false.
Proof.
  split; [reflexivity |].
  destruct (accurate_cache_forces_fastmem_off posix_build accurate_cache_world
              fresh_engine
              [(usual_world, CallInitBLROptimization); (usual_world, CallProtectStack)]
              watched_world eq_refl eq_refl)
    as (_ & _ & Hdcbz & _ & _ & Hfast).
  split; [exact Hdcbz | exact Hfast].
Defined.

Lemma accurate_cache_keeps_blr_disarmed_witness :
  MAIN_ACCURATE_CPU_CACHE (config accurate_cache_world) = true
  /\ m_enable_blr_optimization
       (state_of
          (InitBLROptimization
             (state_of
                (run posix_build [(watched_world, CallUpdateMemoryAndExceptionOptions)]
                   (state_of (RefreshConfig accurate_cache_world fresh_engine))))))
     = false.
Proof.
  split; [reflexivity |].
  destruct (accurate_cache_keeps_blr_disarmed posix_build accurate_cache_world
              fresh_engine [(watched_world, CallUpdateMemoryAndExceptionOptions)]
              usual_world eq_refl eq_refl)
    as (_ & Hoff & _).
  exact Hoff.
Defined.

Lemma HandleStackFault_handles_own_fault_witness :
  m_enable_blr_optimization guarded_engine = true
  /\ IsCPUThread usual_world = true
  /\ value_of (HandleStackFault posix_build usual_world guarded_engine) = true
  /\ trace_of (HandleStackFault posix_build usual_world guarded_engine)
     = [EvWarnLog "BLR cache disabled due to excessive BL in the emulated program.";
        EvUnWriteProtectMemory 0x7f0000030000 65536;
        EvInvalidateICache 0 0xffffffff true;
        EvForceExceptionCheck 0].
Proof.
  split; [reflexivity |]. split; [reflexivity |].
  destruct (HandleStackFault_handles_own_fault posix_build usual_world guarded_engine
              eq_refl eq_refl)
    as (Hv & _ & _ & _ & _ & Ht & _).
  split; [exact Hv | exact Ht].
Defined.

Lemma HandleStackFault_declines_foreign_fault_witness :
  HandleStackFault posix_build usual_world configured_engine
  = (false, configured_engine, [])
  /\ (let handled := state_of (HandleStackFault posix_build usual_world guarded_engine) in
      HandleStackFault posix_build usual_world handled = (false, handled, [])).
Proof.
  destruct (HandleStackFault_declines_foreign_fault posix_build) as [Hforeign Hsecond].
  split.
  - apply Hforeign. left. reflexivity.
  - apply (Hsecond usual_world guarded_engine [] usual_world); reflexivity.
Defined.

Lemma CleanUpAfterStackFault_clears_once_witness :
  CleanUpAfterStackFault posix_build guarded_engine = (tt, guarded_engine, [])
  /\ cache_clears
       (trace_of
          (run posix_build
             [(usual_world, CallCleanUpAfterStackFault);
              (usual_world, CallHandleStackFault);
              (usual_world, CallCleanUpAfterStackFault)]
             (state_of (HandleStackFault posix_build usual_world guarded_engine))))
     = 1%nat.
Proof.
  destruct (CleanUpAfterStackFault_clears_once posix_build) as (Hidle & _ & _ & Honce).
  split.
  - apply Hidle. reflexivity.
  - apply (Honce usual_world guarded_engine
             [(usual_world, CallCleanUpAfterStackFault);
              (usual_world, CallHandleStackFault);
              (usual_world, CallCleanUpAfterStackFault)]);
      reflexivity.
Defined.

Lemma CanMergeNextInstructions_true_iff_witness :
  CanMergeNextInstructions usual_world configured_engine 2 = true
  /\ forall i : Z, 1 <= i <= 2 -> isBranchTarget (sample_op i) = false.
Proof.
  split; [reflexivity |].
  apply (proj1 (CanMergeNextInstructions_true_iff usual_world configured_engine 2)).
  reflexivity.
Defined.

Lemma ShouldHandleFPExceptionForInstruction_cases_witness :
  let s := state_of (UpdateMemoryAndExceptionOptions usual_world
                       (state_of (RefreshConfig float_exceptions_world fresh_engine))) in
  let s0 := state_of (UpdateMemoryAndExceptionOptions usual_world
                        (state_of (RefreshConfig usual_world fresh_engine))) in
  ShouldHandleFPExceptionForInstruction posix_build s (sample_op 1) = true
  /\ ShouldHandleFPExceptionForInstruction posix_build s0 (sample_op 1) = false.
Proof.
  split.
  - apply (ShouldHandleFPExceptionForInstruction_cases posix_build
             float_exceptions_world usual_world fresh_engine (sample_op 1)).
    + reflexivity.
    + reflexivity.
    + unfold flagged. vm_compute. discriminate.
    + unfold flagged. vm_compute. intros H. apply H. reflexivity.
  - apply (ShouldHandleFPExceptionForInstruction_cases posix_build
             usual_world usual_world fresh_engine (sample_op 1));
      reflexivity.
Defined.

Lemma ProtectStack_integrity_failure_witness :
  target posix_build = Posix
  /\ m_enable_blr_optimization armed_engine = true
  /\ integrity_check_fails posix_build no_page_size_world = true
  /\ disabled_with_one_diagnostic posix_build no_page_size_world armed_engine
  /\ m_enable_blr_optimization
       (state_of
          (run posix_build [(usual_world, CallProtectStack)]
             (state_of (ProtectStack posix_build no_page_size_world armed_engine))))
     = false.
Proof.
  split; [reflexivity |]. split; [reflexivity |]. split; [reflexivity |].
  destruct (ProtectStack_integrity_failure posix_build no_page_size_world armed_engine
              [(usual_world, CallProtectStack)] eq_refl eq_refl eq_refl eq_refl)
    as (Hone & _ & _ & Hoff).
  split; [exact Hone | exact Hoff].
Defined.

(** With exactly [GUARD_SIZE + MIN_UNSAFE_STACK_SIZE] bytes between the
    guard point and the frame, the margin does not exceed that sum, yet the
    code protects the guard and reports nothing: C7 as worded fails here. *)
Lemma exact_margin_arms_guard :
  ~ (m_enable_blr_optimization armed_engine = true ->
     documented_integrity_check_fails posix_build exact_margin_world = true ->
     disabled_with_one_diagnostic posix_build exact_margin_world armed_engine).
Proof.
  intros H.
  destruct (ProtectStack_arms_at_exact_margin posix_build exact_margin_world
              armed_engine eq_refl eq_refl eq_refl eq_refl)
    as [Hdoc Harmed].
  - vm_compute. split; reflexivity.
  - reflexivity.
  - destruct (H eq_refl Hdoc) as (fmt & args & E).
    unfold guard_armed in Harmed. rewrite Harmed in E. discriminate E.
Qed.

(** ** Further properties at concrete inputs *)

Example overflow_session_tracks :
  track_guard posix_build 0
    (trace_of (run posix_build (overflow_session usual_world usual_world)
                 configured_engine))
  = Some 0.
Proof. reflexivity. Qed.

Example release_without_protection_rejected :
  track_guard posix_build 0 [EvUnWriteProtectMemory 0x7f0000030000 65536] = None
  /\ track_guard posix_build 0x7f0000030000
       [EvUnWriteProtectMemory 0x7f0000030000 65536;
        EvUnWriteProtectMemory 0x7f0000030000 65536] = None.
Proof. split; reflexivity. Qed.

Lemma session_disarms_at_most_once_witness :
  within_session
    [(no_page_size_world, CallProtectStack); (usual_world, CallHandleStackFault);
     (usual_world, CallProtectStack)] = true
  /\ (disarmings
        (trace_of
           (run posix_build
              [(no_page_size_world, CallProtectStack); (usual_world, CallHandleStackFault);
               (usual_world, CallProtectStack)]
              armed_engine))
      + armed_count
          (state_of
             (run posix_build
                [(no_page_size_world, CallProtectStack);
                 (usual_world, CallHandleStackFault);
                 (usual_world, CallProtectStack)]
                armed_engine))
      <= armed_count armed_engine)%nat.
Proof.
  split; [reflexivity |].
  apply (session_disarms_at_most_once posix_build
           [(no_page_size_world, CallProtectStack); (usual_world, CallHandleStackFault);
            (usual_world, CallProtectStack)]
           armed_engine).
  reflexivity.
Defined.

Lemma ProtectStack_on_means_guarded_witness :
  target posix_build = Posix
  /\ m_enable_blr_optimization
       (state_of (ProtectStack posix_build usual_world armed_engine)) = true
  /\ trace_of (ProtectStack posix_build usual_world armed_engine)
     = [EvReadProtectMemory (stack_guard_addr_of posix_build usual_world)
          (GUARD_SIZE posix_build)].
Proof.
  split; [reflexivity |]. split; [reflexivity |].
  apply (ProtectStack_on_means_guarded posix_build usual_world armed_engine);
    reflexivity.
Defined.

Lemma armed_guard_below_frame_witness :
  m_enable_blr_optimization
    (state_of (ProtectStack posix_build exact_margin_world armed_engine)) = true
  /\ 0 <= stack_guard_addr_of posix_build exact_margin_world
  /\ frame_addr exact_margin_world < 2 ^ 64
  /\ stack_guard_addr_of posix_build exact_margin_world + GUARD_SIZE posix_build
     + MIN_UNSAFE_STACK_SIZE posix_build
     <= frame_addr exact_margin_world.
Proof.
  assert (Hg : 0 <= stack_guard_addr_of posix_build exact_margin_world)
    by (vm_compute; discriminate).
  assert (Hf : frame_addr exact_margin_world < 2 ^ 64) by reflexivity.
  split; [reflexivity |]. split; [exact Hg |]. split; [exact Hf |].
  apply (armed_guard_below_frame posix_build exact_margin_world armed_engine
           eq_refl eq_refl Hg Hf).
  vm_compute. split; [discriminate | reflexivity].
Defined.

Lemma ProtectStack_UnprotectStack_round_trip_witness :
  m_stack_guard armed_engine = 0
  /\ integrity_check_fails posix_build usual_world = false
  /\ stack_guard_addr_of posix_build usual_world <> 0
  /\ (ProtectStack posix_build usual_world ;; UnprotectStack posix_build) armed_engine
     = (tt, armed_engine,
        [EvReadProtectMemory 0x7f0000030000 65536;
         EvUnWriteProtectMemory 0x7f0000030000 65536]).
Proof.
  assert (Hg : stack_guard_addr_of posix_build usual_world <> 0)
    by (vm_compute; discriminate).
  split; [reflexivity |]. split; [reflexivity |]. split; [exact Hg |].
  apply (ProtectStack_UnprotectStack_round_trip posix_build usual_world armed_engine
           eq_refl eq_refl eq_refl eq_refl Hg).
Defined.

Lemma overflow_session_outcome_witness :
  enableBlocklink (jo configured_engine) = true
  /\ m_fastmem_enabled configured_engine = true
  /\ m_enable_debugging configured_engine = false
  /\ IsCPUThread usual_world = true
  /\ cache_clears
       (trace_of
          (run posix_build (overflow_session usual_world usual_world) configured_engine))
     = 1%nat.
Proof.
  assert (Hg : stack_guard_addr_of posix_build usual_world <> 0)
    by (vm_compute; discriminate).
  split; [reflexivity |]. split; [reflexivity |]. split; [reflexivity |].
  split; [reflexivity |].
  rewrite (overflow_session_outcome posix_build usual_world usual_world
             configured_engine eq_refl eq_refl eq_refl eq_refl eq_refl eq_refl Hg
             eq_refl).
  reflexivity.
Defined.

Lemma RefreshConfig_overwrites_snapshot_witness :
  agree_outside_snapshot stale_snapshot_engine fresh_engine
  /\ RefreshConfig usual_world stale_snapshot_engine
     = RefreshConfig usual_world fresh_engine.
Proof.
  assert (Ha : agree_outside_snapshot stale_snapshot_engine fresh_engine)
    by (repeat split).
  split; [exact Ha |].
  apply (RefreshConfig_overwrites_snapshot usual_world stale_snapshot_engine
           fresh_engine Ha).
Defined.

Lemma CanMergeNextInstructions_fewer_witness :
  CanMergeNextInstructions usual_world configured_engine 2 = true
  /\ CanMergeNextInstructions usual_world configured_engine 1 = true
  /\ CanMergeNextInstructions usual_world configured_engine (-3) = true.
Proof.
  split; [reflexivity |].
  split.
  - apply (CanMergeNextInstructions_fewer usual_world configured_engine 2 1);
      [reflexivity | lia].
  - apply (CanMergeNextInstructions_fewer usual_world configured_engine 2 (-3));
      [reflexivity | lia].
Defined.

Lemma CanMergeNextInstructions_same_window_witness :
  same_window configured_engine other_window_engine 2
  /\ CanMergeNextInstructions usual_world configured_engine 2
     = CanMergeNextInstructions usual_world other_window_engine 2.
Proof.
  assert (Hw : same_window configured_engine other_window_engine 2).
  { split; [reflexivity |]. split; [reflexivity |].
    intros i Hi. assert (Hc : i = 1 \/ i = 2) by lia.
    destruct Hc as [-> | ->]; split; reflexivity. }
  split; [exact Hw |].
  apply (CanMergeNextInstructions_same_window usual_world configured_engine
           other_window_engine 2 Hw).
Defined.

Lemma CanMergeNextInstructions_nothing_to_merge_witness :
  0 <= 0
  /\ CanMergeNextInstructions usual_world other_window_engine 0 = true.
Proof.
  split; [lia |].
  rewrite (CanMergeNextInstructions_nothing_to_merge usual_world other_window_engine 0);
    [reflexivity | lia].
Defined.

Lemma options_agree_with_analyzer_witness :
  let s' :=
    state_of
      (run posix_build [(usual_world, CallProtectStack)]
         (state_of
            (UpdateMemoryAndExceptionOptions watched_world
               (state_of
                  (run posix_build [(usual_world, CallInitBLROptimization)]
                     (state_of (RefreshConfig float_exceptions_world fresh_engine))))))) in
  fp_exceptions (jo s') = true
  /\ an_float_exceptions_enabled (analyzer s') = true.
Proof.
  cbv zeta.
  destruct (options_agree_with_analyzer posix_build float_exceptions_world watched_world
              [(usual_world, CallInitBLROptimization)]
              [(usual_world, CallProtectStack)] fresh_engine eq_refl)
    as [Hf _].
  split; [reflexivity |].
  rewrite <- Hf. reflexivity.
Defined.
